(** * The adaptive iteration controller of the interactive CSV analyzer

    A shallow embedding of the control logic of [src/main.py]
    (class [InteractiveCSVAnalyzer]): the response parser, the topic
    tracker, the repetition detector, the sandbox health probe, the error
    classifier, the completion check, the prompt generator and the
    iteration loop [execute_with_automation] that ties them together.

    Conventions.
    - A Python [str] is a [string]; one [ascii] stands for one character
      (code points 0..255).  The pictographs of the constant templates are
      written as in the source.
    - A Python [int] is a [Z].
    - A Python [set] of topic labels is a [gset string].
    - A value of type [Any] that the code only observes through [bool(_)]
      and [str(_)] is a [pyobj].
    - The language model, the sandbox and the clock are external: what
      they answer at each step of a run is a scripted input of the model. *)

From Stdlib Require Import ZArith Lia Bool Ascii String DecimalString.
From stdpp Require Import gmap strings list.

Local Open Scope Z_scope.

(** ** Python string operations *)

Module PyStr.

(** [str.isspace] on one character: the white space of code points
    below 256. *)
Definition is_space (c : ascii) : bool :=
  let n := N_of_ascii c in
  ((9 <=? n) && (n <=? 13) || (28 <=? n) && (n <=? 32)
   || (n =? 133) || (n =? 160))%N.

(** [str.lower] on one character: A-Z and the upper-case letters of
    Latin-1 move by 32. *)
Definition lower_char (c : ascii) : ascii :=
  let n := N_of_ascii c in
  if ((65 <=? n) && (n <=? 90)
      || (192 <=? n) && (n <=? 222) && negb (n =? 215))%N
  then ascii_of_N (n + 32) else c.

Fixpoint lower (s : string) : string :=
  match s with
  | EmptyString => EmptyString
  | String c s' => String (lower_char c) (lower s')
  end.

(** [s.startswith(p)] *)
Definition startswith (p s : string) : bool := String.prefix p s.

(** [sub in s] *)
Fixpoint contains (sub s : string) : bool :=
  String.prefix sub s ||
  match s with
  | EmptyString => false
  | String _ s' => contains sub s'
  end.

(** [s.lstrip()], [s.rstrip()], [s.strip()] *)
Fixpoint lstrip (s : string) : string :=
  match s with
  | EmptyString => EmptyString
  | String c s' => if is_space c then lstrip s' else s
  end.

Fixpoint rstrip (s : string) : string :=
  match s with
  | EmptyString => EmptyString
  | String c s' =>
      match rstrip s' with
      | EmptyString => if is_space c then EmptyString else String c EmptyString
      | r => String c r
      end
  end.

Definition strip (s : string) : string := rstrip (lstrip s).

(** [s.split(sep)] for a one-character separator: never the empty list. *)
Fixpoint split_char (sep : ascii) (s : string) : list string :=
  match s with
  | EmptyString => [EmptyString]
  | String c s' =>
      if Ascii.eqb c sep then EmptyString :: split_char sep s'
      else match split_char sep s' with
           | h :: t => String c h :: t
           | [] => [String c EmptyString]
           end
  end.

(** [s.split()]: the maximal runs of characters that are not white
    space. [cur] is the run being read, reversed. *)
Fixpoint split_ws_go (cur : string) (s : string) : list string :=
  match s with
  | EmptyString =>
      match cur with EmptyString => [] | _ => [String.rev cur] end
  | String c s' =>
      if is_space c then
        match cur with
        | EmptyString => split_ws_go EmptyString s'
        | _ => String.rev cur :: split_ws_go EmptyString s'
        end
      else split_ws_go (String c cur) s'
  end.

Definition split_ws (s : string) : list string := split_ws_go EmptyString s.

(** [s.replace(old, '')] for a non-empty [old]: occurrences are removed
    from left to right without overlap. [skip] counts the characters of
    the occurrence being removed that are still to be dropped. *)
Fixpoint remove_go (old : string) (skip : nat) (s : string) : string :=
  match s with
  | EmptyString => EmptyString
  | String c s' =>
      match skip with
      | S k => remove_go old k s'
      | O => if String.prefix old s
             then remove_go old (Nat.pred (String.length old)) s'
             else String c (remove_go old O s')
      end
  end.

Definition remove_all (old s : string) : string := remove_go old O s.

(** [s[:n]] for [n >= 0] *)
Fixpoint take (n : nat) (s : string) : string :=
  match n, s with
  | S k, String c s' => String c (take k s')
  | _, _ => EmptyString
  end.

(** [s[n:]] for [n >= 0] *)
Fixpoint drop (n : nat) (s : string) : string :=
  match n, s with
  | S k, String _ s' => drop k s'
  | _, _ => s
  end.

(** [s[-n:]] for [n > 0]: the last [n] characters, all of [s] when it
    is shorter. *)
Definition last_chars (n : nat) (s : string) : string :=
  drop (String.length s - n)%nat s.

(** [s[a:b]] for [0 <= a] and [0 <= b] *)
Definition slice (a b : nat) (s : string) : string :=
  take (b - a)%nat (drop a s).

(** [s.find(sub, start)] for [start >= 0]: the least index at or after
    [start] where [sub] occurs, [-1] when there is none. *)
Fixpoint find_go (sub : string) (s : string) (pos : nat) : Z :=
  if String.prefix sub s then Z.of_nat pos
  else match s with
       | EmptyString => -1
       | String _ s' => find_go sub s' (S pos)
       end.

Definition find (sub s : string) (start : nat) : Z :=
  if (String.length s <? start)%nat then -1
  else find_go sub (drop start s) start.

(** [sep.join(l)] *)
Definition join (sep : string) (l : list string) : string :=
  String.concat sep l.

(** [str(n)] for an [int] *)
Definition of_Z (n : Z) : string := NilZero.string_of_int (Z.to_int n).

End PyStr.

(** ** Data *)

(** A Python value that the controller only tests for truth and renders
    with [str]. *)
Record pyobj := PyObj { truthy : bool; str : string }.

(** A [str] seen as such a value: false exactly when empty. *)
Definition py_str (s : string) : pyobj := PyObj (negb (String.eqb s "")) s.

(** One entry of [self.session_history], as [execute_code] builds it. *)
Record SessionEntry := {
  timestamp : string;
  code : string;
  logs : pyobj;
  success : bool;
  results_count : Z
}.

(** The dictionary returned by [_check_analysis_completion]. *)
Record CompletionCheck := {
  should_stop : bool;
  reason : string
}.

Definition nl : string := String "010" EmptyString.

(** ** _track_analysis_topics *)

Definition topic_mapping : list (string * list string) :=
  [ ("data_exploration", ["shape"; "structure"; "overview"; "basic"; "exploration"]);
    ("correlations", ["correlation"; "relationship"; "association"]);
    ("distributions", ["distribution"; "histogram"; "spread"; "density"]);
    ("visualization", ["plot"; "chart"; "graph"; "visualiz"]);
    ("patterns", ["pattern"; "trend"; "outlier"; "anomal"]);
    ("statistics", ["statistical"; "summary"; "mean"; "median"; "std"]);
    ("target_analysis", ["target"; "prediction"; "classification"]);
    ("feature_analysis", ["feature"; "variable"; "column"]) ].

Definition _track_analysis_topics (explanation : string)
    (topics_covered : gset string) : gset string :=
  let explanation_lower := PyStr.lower explanation in
  foldl (fun covered (entry : string * list string) =>
           if existsb (fun keyword => PyStr.contains keyword explanation_lower)
                (snd entry)
           then covered ∪ {[ fst entry ]} else covered)
        topics_covered topic_mapping.

(** ** _detect_repetitive_analysis *)

(** [set(code.split())] of the lower-cased code *)
Definition word_set (code_lower : string) : gset string :=
  list_to_set (PyStr.split_ws code_lower).

(** [len(common_words) > 10] *)
Definition similar (code other_code : string) : bool :=
  let common_words :=
    word_set (PyStr.lower code) ∩ word_set (PyStr.lower other_code) in
  (10 <? size common_words)%nat.

(** The list [code_similarities]: for each of the recent entries, how many
    of the entries after it are similar to it. *)
Fixpoint code_similarities (recent_analyses : list SessionEntry) : list nat :=
  match recent_analyses with
  | [] => []
  | analysis :: others =>
      length (List.filter (fun other_analysis =>
                similar (code analysis) (code other_analysis)) others)
      :: code_similarities others
  end.

(** [l[-3:]] *)
Definition last3 {A} (l : list A) : list A := drop (length l - 3)%nat l.

Definition _detect_repetitive_analysis (session_history : list SessionEntry) : bool :=
  if (length session_history <? 4)%nat then false
  else
    let recent_analyses := last3 session_history in
    (2 <=? foldr Nat.max 0%nat (code_similarities recent_analyses))%nat.

(** ** _check_sandbox_health *)

(** What [self.sandbox.run_code("print('health_check')")] does: it returns
    an execution whose [error] is [None] or not, or it raises [e] and
    [msg] is [str(e)]. *)
Inductive probe_outcome :=
| ProbeReturned (error : option string)
| ProbeRaised (msg : string).

Definition _check_sandbox_health (has_sandbox : bool) (probe : probe_outcome) : bool :=
  if negb has_sandbox then false
  else match probe with
       | ProbeReturned error =>
           match error with None => true | Some _ => false end
       | ProbeRaised msg =>
           if PyStr.contains "sandbox was not found" msg
              || PyStr.contains "timeout" (PyStr.lower msg)
           then false else true
       end.

(** ** _handle_execution_error *)

Definition _handle_execution_error (error_logs : pyobj) (iteration : Z) : bool :=
  let error_str := PyStr.lower (str error_logs) in
  if PyStr.contains "sandbox was not found" error_str
     || PyStr.contains "timeout" error_str then true
  else if PyStr.contains "import" error_str
          || PyStr.contains "module" error_str then true
  else if PyStr.contains "file not found" error_str
          || PyStr.contains "no such file" error_str then true
  else false.

(** ** _check_analysis_completion *)

Definition completion_signals : list string :=
  [ "analysis is complete"; "comprehensive analysis"; "analysis complete";
    "sufficient insights"; "thorough analysis"; "complete understanding";
    "analysis finished"; "all aspects covered"; "comprehensive coverage" ].

Definition core_topics : gset string :=
  {[ "data_exploration"; "correlations"; "distributions"; "visualization";
     "patterns" ]}.

(** The first signal of the list that occurs in the lower-cased response:
    the [for] loop returns at the first match. *)
Definition matched_signal (response_lower : string) : option string :=
  List.find (fun signal => PyStr.contains signal response_lower) completion_signals.

Definition _check_analysis_completion (session_history : list SessionEntry)
    (ai_response : string) (iteration min_iterations : Z)
    (topics_covered : gset string) : CompletionCheck :=
  let response_lower := PyStr.lower ai_response in
  match matched_signal response_lower with
  | Some signal =>
      {| should_stop := true;
         reason := "AI indicated completion with signal: '" +:+ signal +:+ "'" |}
  | None =>
      if iteration <? min_iterations then
        {| should_stop := false; reason := "Still in minimum iteration phase" |}
      else
        let covered_core := core_topics ∩ topics_covered in
        if (4 <=? Z.of_nat (size covered_core)) && (5 <=? iteration) then
          {| should_stop := true;
             reason := "Comprehensive coverage achieved: "
                       +:+ PyStr.of_Z (Z.of_nat (size covered_core))
                       +:+ " core topics covered" |}
        else if (8 <? iteration) && _detect_repetitive_analysis session_history then
          {| should_stop := true;
             reason := "Analysis becoming repetitive - comprehensive insights achieved" |}
        else
          {| should_stop := false; reason := "Analysis should continue" |}
  end.

(** ** _parse_ai_response *)

(** The state of the line loop of the structured format:
    [explanation], [code] and [in_code_block]. *)
Record LineState := {
  ls_explanation : string;
  ls_code : string;
  ls_in_code_block : bool
}.

(** One turn of [for line in lines]. *)
Definition parse_line (st : LineState) (line : string) : LineState :=
  if PyStr.startswith "EXPLANATION:" line then
    {| ls_explanation := PyStr.strip (PyStr.remove_all "EXPLANATION:" line);
       ls_code := ls_code st;
       ls_in_code_block := ls_in_code_block st |}
  else if PyStr.startswith "CODE:" line then st
  else if PyStr.startswith "```python" (PyStr.strip line) then
    {| ls_explanation := ls_explanation st;
       ls_code := ls_code st;
       ls_in_code_block := true |}
  else if String.eqb (PyStr.strip line) "```" && ls_in_code_block st then
    {| ls_explanation := ls_explanation st;
       ls_code := ls_code st;
       ls_in_code_block := false |}
  else if ls_in_code_block st then
    {| ls_explanation := ls_explanation st;
       ls_code := ls_code st +:+ line +:+ nl;
       ls_in_code_block := true |}
  else st.

Definition code_keywords : list string :=
  [ "import "; "df."; "plt."; "print("; "pandas" ].

(** None of the string operations of the [try] block raises, so the
    [except] branch of the source is never entered and the function
    always returns its pair. *)
Definition _parse_ai_response (response : string) : string * string :=
  if PyStr.contains "EXPLANATION:" response then
    (* Method 1: structured format *)
    let lines := PyStr.split_char "010" (PyStr.strip response) in
    let st := foldl parse_line
                {| ls_explanation := ""; ls_code := ""; ls_in_code_block := false |}
                lines in
    (ls_explanation st, PyStr.strip (ls_code st))
  else if PyStr.contains "```python" response then
    (* Method 2: markdown code block *)
    let code_start := PyStr.find "```python" response 0 in
    let explanation :=
      if 0 <? code_start then
        PyStr.strip (PyStr.remove_all "EXPLANATION:"
                       (PyStr.strip (PyStr.take (Z.to_nat code_start) response)))
      else "" in
    let code_start_content := code_start + 9 in
    let code_end := PyStr.find "```" response (Z.to_nat code_start_content) in
    let code :=
      if negb (code_end =? -1) then
        PyStr.strip (PyStr.slice (Z.to_nat code_start_content)
                       (Z.to_nat code_end) response)
      else "" in
    (explanation, code)
  else if existsb (fun keyword => PyStr.contains keyword response) code_keywords then
    (* Method 3: pure code *)
    ("", PyStr.strip response)
  else
    (* Method 4: explanation only *)
    (PyStr.strip response, "").

Definition labeled_ex : string :=
  "EXPLANATION: Look at the shape." +:+ nl +:+ nl +:+ "CODE:" +:+ nl
  +:+ "```python" +:+ nl +:+ "import pandas as pd" +:+ nl
  +:+ "print(df.shape)" +:+ nl +:+ "```".

(** ** _update_context *)

Definition _update_context (analysis_context new_info : string) : string :=
  let analysis_context := analysis_context +:+ nl +:+ new_info in
  if (2000 <? String.length analysis_context)%nat
  then PyStr.last_chars 1500 analysis_context
  else analysis_context.

(** ** chat_with_ai *)

(** [raw] is the content of the first choice of the completion, [None]
    when the request raised: the function then prints and returns [None]. *)
Definition chat_with_ai (raw : option string) : option string :=
  match raw with
  | None => None
  | Some content =>
      let code := PyStr.strip content in
      if PyStr.contains "ANALYSIS_COMPLETE" code then Some "ANALYSIS_COMPLETE"
      else Some code
  end.

(** ** execute_code *)

(** The object returned by [sandbox.run_code]: [error] is [None] or an
    error object (true, rendered by [str]); [results] counts
    [execution.results]. *)
Record Execution := {
  exec_error : option string;
  exec_logs : pyobj;
  exec_results : nat
}.

(** What the sandbox does with the code: [run_code] raises [e] (with
    [str(e) = msg]; so does the attribute access when there is no sandbox),
    or it returns an execution; saving the results may then raise in its
    turn, and [now] is what the clock reads when the entry is built. *)
Inductive run_outcome :=
| RunRaised (msg : string)
| RunReturned (execution : Execution) (save_raised : option string) (now : string).

(** Returns the history after the call and the pair [(success, logs)]. *)
Definition execute_code (session_history : list SessionEntry) (code : string)
    (outcome : run_outcome) : list SessionEntry * (bool * pyobj) :=
  match outcome with
  | RunRaised msg => (session_history, (false, py_str msg))
  | RunReturned execution save_raised now =>
      match exec_error execution with
      | Some err => (session_history, (false, PyObj true err))
      | None =>
          match (if (0 <? exec_results execution)%nat then save_raised else None) with
          | Some msg => (session_history, (false, py_str msg))
          | None =>
              (session_history ++
                 [ {| timestamp := now;
                      code := code;
                      logs := exec_logs execution;
                      success := true;
                      results_count := Z.of_nat (exec_results execution) |} ],
               (true, exec_logs execution))
          end
      end
  end.

(** ** The controller *)

Section Controller.

(** The order in which Python iterates over a set of labels (it is what
    [', '.join] renders). It is arbitrary but lists the elements of the
    set, each once. *)
Variable set_order : gset string → list string.

Definition lists_elements : Prop :=
  ∀ s : gset string, set_order s ≡ₚ elements s.

(** *** _generate_intelligent_prompt *)

Definition all_topics : gset string :=
  {[ "data_exploration"; "correlations"; "distributions"; "visualization";
     "patterns"; "statistics"; "target_analysis" ]}.

(** [str(logs)[:400] if logs else 'No output'] *)
Definition previous_results (logs : pyobj) : string :=
  if truthy logs then PyStr.take 400 (str logs) else "No output".

(** [self.analysis_context[-800:] if self.analysis_context else ...] *)
Definition context_excerpt (analysis_context : string) : string :=
  if negb (String.eqb analysis_context "")
  then PyStr.last_chars 800 analysis_context else "Starting analysis".

(** [', '.join(topics) if topics else placeholder] *)
Definition topic_list (topics : gset string) (placeholder : string) : string :=
  if (0 <? size topics)%nat then PyStr.join ", " (set_order topics)
  else placeholder.

Definition prompt_instructions : string :=
  nl +:+ nl +:+ "INTELLIGENT NEXT STEP:" +:+ nl
  +:+ "Based on the coverage status, please choose the MOST VALUABLE next analysis step." +:+ nl
  +:+ "Priority order:" +:+ nl
  +:+ "1. If data_exploration not covered: Basic data overview and structure" +:+ nl
  +:+ "2. If correlations not covered: Feature relationships and target correlations  " +:+ nl
  +:+ "3. If distributions not covered: Feature distributions and patterns" +:+ nl
  +:+ "4. If visualization not covered: Key visualizations for insights" +:+ nl
  +:+ "5. If patterns not covered: Advanced pattern detection and outliers" +:+ nl
  +:+ nl +:+ "IMPORTANT: " +:+ nl
  +:+ "- Choose ONE focused analysis that adds NEW insights" +:+ nl
  +:+ "- Avoid repeating previous analyses" +:+ nl
  +:+ "- If all major topics covered, provide final summary or conclude" +:+ nl
  +:+ "- Generate executable Python code for your chosen analysis" +:+ nl.

Definition _generate_intelligent_prompt (analysis_context : string)
    (iteration : Z) (logs : pyobj) (topics_covered : gset string) : string :=
  let remaining_topics := all_topics ∖ topics_covered in
  nl +:+ "INTELLIGENT ANALYSIS CONTINUATION - Step " +:+ PyStr.of_Z (iteration + 1)
  +:+ nl +:+ nl +:+ "PREVIOUS STEP RESULTS:" +:+ nl
  +:+ previous_results logs
  +:+ nl +:+ nl +:+ "ANALYSIS CONTEXT:" +:+ nl
  +:+ context_excerpt analysis_context
  +:+ nl +:+ nl +:+ "COVERAGE STATUS:" +:+ nl
  +:+ "✅ Completed topics: " +:+ topic_list topics_covered "None yet" +:+ nl
  +:+ "📋 Remaining areas: " +:+ topic_list remaining_topics "All major areas covered"
  +:+ prompt_instructions.

(** *** _print_completion_summary *)

(** ['Comprehensive' if len(topics_covered) >= 4 else 'Partial'] *)
Definition analysis_quality (topics_covered : gset string) : string :=
  if (4 <=? size topics_covered)%nat then "Comprehensive" else "Partial".

(** The lines the function prints, in order. *)
Definition _print_completion_summary (session_history : list SessionEntry)
    (iteration : Z) (topics_covered : gset string) (sandbox_resets : Z)
    : list string :=
  [ nl +:+ "🎯 INTELLIGENT ANALYSIS COMPLETE";
    "==================================================";
    "📊 Total steps completed: " +:+ PyStr.of_Z iteration;
    "🔬 Analysis topics covered: " +:+ PyStr.of_Z (Z.of_nat (size topics_covered));
    "   " +:+ topic_list topics_covered "None";
    "📈 Visualizations created: "
      +:+ PyStr.of_Z (Z.of_nat (length (List.filter
                        (fun h => 0 <? results_count h) session_history)));
    "🔧 Sandbox recoveries: " +:+ PyStr.of_Z sandbox_resets;
    "✅ Analysis quality: " +:+ analysis_quality topics_covered;
    if (4 <=? size topics_covered)%nat
    then "🎉 Comprehensive analysis achieved through intelligent iteration!"
    else "💡 For deeper insights, try 'autorun [specific topic]' to continue" ].

(** *** execute_with_automation *)

(** The analyzer object and the local variables of the loop. *)
Record State := {
  has_sandbox : bool;
  session_history : list SessionEntry;
  analysis_context : string;
  iteration : Z;
  current_prompt : string;
  consecutive_failures : Z;
  analysis_topics_covered : gset string;
  sandbox_reset_count : Z
}.

(** What the outside world answers during one turn of the loop: the
    health probe, whether a new sandbox could be created, the model's
    reply and the run of the code. An answer is read only if the turn
    gets to ask for it. *)
Record Turn := {
  probe : probe_outcome;
  sandbox_created : bool;
  model_reply : option string;
  run : run_outcome
}.

(** Which [break] ended the loop, or that its condition became false. *)
Inductive Exit :=
| SandboxLost
| ModelFailures
| AnalysisComplete (reason : string)
| ExecutionFailures
| LimitReached.

(** The body of the [while] loop; [inr] is a [break], [inl] goes back to
    the loop condition ([continue] or the end of the body). *)
Definition loop_body (min_iterations : Z) (t : Turn) (st : State)
    : State + (State * Exit) :=
  let iteration := iteration st + 1 in
  let st := {| has_sandbox := has_sandbox st;
               session_history := session_history st;
               analysis_context := analysis_context st;
               iteration := iteration;
               current_prompt := current_prompt st;
               consecutive_failures := consecutive_failures st;
               analysis_topics_covered := analysis_topics_covered st;
               sandbox_reset_count := sandbox_reset_count st |} in
  let healthy := _check_sandbox_health (has_sandbox st) (probe t) in
  if negb healthy && negb (sandbox_created t) then inr (st, SandboxLost)
  else
    let has_sandbox := if healthy then has_sandbox st else true in
    let sandbox_reset_count :=
      if healthy then sandbox_reset_count st else sandbox_reset_count st + 1 in
    match chat_with_ai (model_reply t) with
    | None | Some EmptyString =>
        let consecutive_failures := consecutive_failures st + 1 in
        let st := {| has_sandbox := has_sandbox;
                     session_history := session_history st;
                     analysis_context := analysis_context st;
                     iteration := iteration;
                     current_prompt := current_prompt st;
                     consecutive_failures := consecutive_failures;
                     analysis_topics_covered := analysis_topics_covered st;
                     sandbox_reset_count := sandbox_reset_count |} in
        if 3 <=? consecutive_failures then inr (st, ModelFailures) else inl st
    | Some ai_response =>
        let consecutive_failures := 0 in
        let completion_check :=
          _check_analysis_completion (session_history st) ai_response
            iteration min_iterations (analysis_topics_covered st) in
        if should_stop completion_check then
          inr ({| has_sandbox := has_sandbox;
                  session_history := session_history st;
                  analysis_context := analysis_context st;
                  iteration := iteration;
                  current_prompt := current_prompt st;
                  consecutive_failures := consecutive_failures;
                  analysis_topics_covered := analysis_topics_covered st;
                  sandbox_reset_count := sandbox_reset_count |},
               AnalysisComplete (reason completion_check))
        else
          let '(explanation, code) := _parse_ai_response ai_response in
          let analysis_topics_covered :=
            if negb (String.eqb explanation "")
            then _track_analysis_topics explanation (analysis_topics_covered st)
            else analysis_topics_covered st in
          if String.eqb code "" then
            inl {| has_sandbox := has_sandbox;
                   session_history := session_history st;
                   analysis_context := analysis_context st;
                   iteration := iteration;
                   current_prompt :=
                     "Please provide executable Python code for the next analysis step.";
                   consecutive_failures := consecutive_failures;
                   analysis_topics_covered := analysis_topics_covered;
                   sandbox_reset_count := sandbox_reset_count |}
          else
            let '(session_history, (success, logs)) :=
              execute_code (session_history st) code (run t) in
            let error_handled :=
              if success then true else _handle_execution_error logs iteration in
            let consecutive_failures :=
              if error_handled then consecutive_failures
              else consecutive_failures + 1 in
            if negb error_handled && (2 <=? consecutive_failures) then
              inr ({| has_sandbox := has_sandbox;
                      session_history := session_history;
                      analysis_context := analysis_context st;
                      iteration := iteration;
                      current_prompt := current_prompt st;
                      consecutive_failures := consecutive_failures;
                      analysis_topics_covered := analysis_topics_covered;
                      sandbox_reset_count := sandbox_reset_count |},
                   ExecutionFailures)
            else
              let result_summary :=
                if truthy logs then PyStr.take 500 (str logs) else "No output" in
              let analysis_context :=
                _update_context (analysis_context st)
                  ("Step " +:+ PyStr.of_Z iteration +:+ ": " +:+ result_summary) in
              inl {| has_sandbox := has_sandbox;
                     session_history := session_history;
                     analysis_context := analysis_context;
                     iteration := iteration;
                     current_prompt :=
                       _generate_intelligent_prompt analysis_context iteration
                         logs analysis_topics_covered;
                     consecutive_failures := consecutive_failures;
                     analysis_topics_covered := analysis_topics_covered;
                     sandbox_reset_count := sandbox_reset_count |}
    end.

(** [while iteration < max_iterations]: [world k] is what the world
    answers during the turn that sets [iteration] to [k]. Each turn adds
    one to [iteration], so [fuel] turns are enough as soon as
    [max_iterations - iteration <= fuel]. *)
Fixpoint while_loop (fuel : nat) (world : Z → Turn)
    (max_iterations min_iterations : Z) (st : State) : State * Exit :=
  if iteration st <? max_iterations then
    match fuel with
    | O => (st, LimitReached)
    | S fuel' =>
        match loop_body min_iterations (world (iteration st + 1)) st with
        | inl st' => while_loop fuel' world max_iterations min_iterations st'
        | inr stopped => stopped
        end
    end
  else (st, LimitReached).

(** The state in which the loop starts, for an analyzer whose fields are
    those of [self]. *)
Definition initial_state (has_sandbox : bool) (session_history : list SessionEntry)
    (analysis_context initial_prompt : string) : State :=
  {| has_sandbox := has_sandbox;
     session_history := session_history;
     analysis_context := analysis_context;
     iteration := 0;
     current_prompt := initial_prompt;
     consecutive_failures := 0;
     analysis_topics_covered := ∅;
     sandbox_reset_count := 0 |}.

(** The method returns [iteration]; the model also keeps the final state
    and the way the loop ended. *)
Definition execute_with_automation (world : Z → Turn) (self : State)
    (initial_prompt : string) (max_iterations min_iterations : Z)
    : State * Exit :=
  while_loop (Z.to_nat max_iterations) world max_iterations min_iterations
    (initial_state (has_sandbox self) (session_history self)
       (analysis_context self) initial_prompt).

End Controller.

(** ** Notions used by the statements *)

(** The response, lower-cased, contains one of the completion phrases. *)
Definition has_completion_signal (ai_response : string) : bool :=
  existsb (fun signal => PyStr.contains signal (PyStr.lower ai_response))
    completion_signals.

(** A history entry for a piece of code that ran without error. *)
Definition entry_of_code (code : string) : SessionEntry :=
  {| timestamp := "2025-01-01T00:00:00";
     code := code;
     logs := PyObj true "";
     success := true;
     results_count := 0 |}.

(** Two snippets with eleven words in common, the second a copy of the
    first with a plot added, and a third one unrelated to both. *)
Definition corr_code : string :=
  "c = df.corr() ; print ( c ) ; x = 1 ; y = 2".

Definition corr_plot_code : string := corr_code +:+ " plot".

Definition describe_code : string := "df.describe()".

(** A non-empty string that starts with a character that is not white
    space, and a string that does not end with white space. *)
Definition starts_nonspace (s : string) : bool :=
  match s with
  | EmptyString => false
  | String c _ => negb (PyStr.is_space c)
  end.

Fixpoint ends_nonspace (s : string) : bool :=
  match s with
  | EmptyString => true
  | String c EmptyString => negb (PyStr.is_space c)
  | String _ s' => ends_nonspace s'
  end.

(** A world in which the sandbox is healthy, the model always answers with
    the same snippet and the snippet always fails in the same way, with an
    error that [_handle_execution_error] does not recognise. *)
Definition division_error : string := "ZeroDivisionError: division by zero".

Definition failing_turn : Turn :=
  {| probe := ProbeReturned None;
     sandbox_created := true;
     model_reply := Some "print(1/0)";
     run := RunReturned {| exec_error := Some division_error;
                           exec_logs := PyObj true "";
                           exec_results := 0 |} None "2025-01-01T00:00:00" |}.

Definition failing_world : Z → Turn := fun _ => failing_turn.

(** A fresh analyzer with a sandbox. *)
Definition fresh_analyzer : State :=
  initial_state true [] "" "".

(** [c * n] for a character [c] *)
Fixpoint replicate_char (n : nat) (c : ascii) : string :=
  match n with
  | O => EmptyString
  | S k => String c (replicate_char k c)
  end.

(** An output of 401 characters that ends with a character which occurs
    nowhere in the prompt template. *)
Definition long_output : pyobj :=
  PyObj true (replicate_char 400 "y" +:+ "~").

(** The prompt built after step 1 from that output, with no context and no
    topic covered yet. *)
Definition long_output_prompt : string :=
  _generate_intelligent_prompt elements "" 1 long_output ∅.

(** *** The labeled format *)

(** No line feed in the string. *)
Fixpoint single_line (s : string) : bool :=
  match s with
  | EmptyString => true
  | String c s' => negb (Ascii.eqb c "010") && single_line s'
  end.

(** The lines, each one ended by a line feed. *)
Fixpoint unlines (lines : list string) : string :=
  match lines with
  | [] => EmptyString
  | line :: rest => line +:+ nl +:+ unlines rest
  end.

(** The format that the system prompt asks for: the marker and the
    explanation, a blank line, the code header and one fenced block tagged
    python. *)
Definition labeled_response (explanation : string) (code_lines : list string)
    : string :=
  "EXPLANATION:" +:+ explanation +:+ nl +:+ nl +:+ "CODE:" +:+ nl
  +:+ "```python" +:+ nl +:+ unlines code_lines +:+ "```".

(** A line of code that the line loop takes as such: it is one line, it
    does not start with a marker and it is not a fence. *)
Definition plain_code_line (line : string) : bool :=
  single_line line
  && negb (PyStr.startswith "EXPLANATION:" line)
  && negb (PyStr.startswith "CODE:" line)
  && negb (PyStr.startswith "```python" (PyStr.strip line))
  && negb (String.eqb (PyStr.strip line) "```").

(** A labeled response whose explanation runs over two lines, and one
    whose code starts with an annotated assignment to a name [CODE]. *)
Definition two_line_explanation : string :=
  labeled_response (" First we load the data." +:+ nl +:+ "Then we print its shape.")
    [ "print(df.shape)" ].

Definition code_named_code : string :=
  labeled_response " Count the rows."
    [ "CODE: int = len(df)"; "print(CODE)" ].

(** A final topic set with four topics, one of them a core topic. *)
Definition one_core_three_others : gset string :=
  {[ "data_exploration"; "statistics"; "target_analysis"; "feature_analysis" ]}.

(** *** The unlabeled format *)

(** No backtick in the string. *)
Fixpoint no_backtick (s : string) : bool :=
  match s with
  | EmptyString => true
  | String c s' => negb (Ascii.eqb c "`") && no_backtick s'
  end.

(** Some text, a fenced block tagged python, and more text. *)
Definition unlabeled_response (before body after : string) : string :=
  before +:+ "```python" +:+ body +:+ "```" +:+ after.

(** *** Notions used by the statements about the loop *)

(** The state in which a turn of the loop ends, with or without [break]. *)
Definition result_state (r : State + State * Exit) : State :=
  match r with
  | inl st => st
  | inr (st, _) => st
  end.

(** The model gave no usable reply: the request raised, or the reply is
    empty once stripped. *)
Definition no_reply (t : Turn) : bool :=
  match chat_with_ai (model_reply t) with
  | None | Some EmptyString => true
  | Some _ => false
  end.

(** The labels that [_track_analysis_topics] can add. *)
Definition topic_vocabulary : gset string :=
  all_topics ∪ {[ "feature_analysis" ]}.

(** The state after a turn in which the sandbox was healthy and the model
    gave no reply: one more iteration, one more failure. *)
Definition after_no_reply (st : State) : State :=
  {| has_sandbox := has_sandbox st;
     session_history := session_history st;
     analysis_context := analysis_context st;
     iteration := iteration st + 1;
     current_prompt := current_prompt st;
     consecutive_failures := consecutive_failures st + 1;
     analysis_topics_covered := analysis_topics_covered st;
     sandbox_reset_count := sandbox_reset_count st |}.


(** ** process_user_command *)

Definition bare_commands : list string :=
  [ "summary"; "help"; "history"; "clear"; "exit" ].

(** Returns the action and its parameters. *)
Definition process_user_command (user_input : string) : string * string :=
  let user_input := PyStr.lower (PyStr.strip user_input) in
  if PyStr.startswith "analyze " user_input then
    ("analyze", PyStr.drop 8 user_input)
  else if PyStr.startswith "visualize " user_input then
    ("visualize", PyStr.drop 10 user_input)
  else if PyStr.startswith "explore " user_input then
    ("explore", PyStr.drop 8 user_input)
  else if PyStr.startswith "autorun " user_input then
    ("autorun", PyStr.drop 8 user_input)
  else if PyStr.startswith "iterate " user_input then
    ("iterate", PyStr.drop 8 user_input)
  else if PyStr.startswith "save " user_input then
    ("save", PyStr.drop 5 user_input)
  else if PyStr.startswith "load " user_input then
    ("load", PyStr.drop 5 user_input)
  else if existsb (String.eqb user_input) bare_commands then
    (user_input, "")
  else ("chat", user_input).

(** The actions that take their parameters from the text after a
    keyword, and all the actions that [interactive_session] dispatches. *)
Definition keyword_actions : list string :=
  [ "analyze"; "visualize"; "explore"; "autorun"; "iterate"; "save"; "load" ].

Definition known_actions : list string :=
  keyword_actions ++ bare_commands ++ [ "chat" ].

(** ** The names of session files *)

(** [s.endswith(suffix)] *)
Definition endswith (suffix s : string) : bool :=
  (String.length suffix <=? String.length s)%nat
  && String.eqb (PyStr.last_chars (String.length suffix) s) suffix.

(** The name of the file that [handle_save_command] writes; [stamp] is
    what [datetime.now().strftime('%Y%m%d_%H%M%S')] gives. *)
Definition save_file_name (filename stamp : string) : string :=
  let filename :=
    if String.eqb filename "" then "session_" +:+ stamp +:+ ".json"
    else filename in
  if negb (endswith ".json" filename) then filename +:+ ".json" else filename.

(** The name of the file that [handle_load_command] reads. *)
Definition load_file_name (filename : string) : string :=
  if negb (endswith ".json" filename) then filename +:+ ".json" else filename.

(** ** handle_history_command *)

(** The code as the history shows it: [entry['code'][:97]] and three dots
    when it is longer than 100 characters. *)
Definition shown_code (code : string) : string :=
  if (100 <? String.length code)%nat then PyStr.take 97 code +:+ "..."
  else code.

(** The lines printed for the entry of rank [i] (from 0). *)
Definition history_entry_lines (i : nat) (entry : SessionEntry) : list string :=
  [ "   " +:+ PyStr.of_Z (Z.of_nat i + 1) +:+ ". " +:+ timestamp entry +:+ " "
      +:+ (if success entry then "✅" else "❌");
    "      Results: " +:+ PyStr.of_Z (results_count entry) +:+ " visualization(s)";
    "      Code: " +:+ shown_code (code entry);
    "" ].

(** The lines that the command prints, in order. *)
Definition handle_history_command (session_history : list SessionEntry)
    : list string :=
  [ nl +:+ "📜 SESSION HISTORY:"; replicate_char 60 "=" ]
  ++ match session_history with
     | [] => [ "   No analysis history yet." ]
     | _ => mjoin (imap history_entry_lines session_history)
     end.

(** * Properties *)

(** ** The string operations and the helpers on examples *)

Example lower_ex : PyStr.lower "The Analysis IS Complete_42" = "the analysis is complete_42".
Proof. reflexivity. Qed.

Example strip_ex : PyStr.strip (String "010" "  a b  " +:+ String "010" "") = "a b".
Proof. reflexivity. Qed.

Example split_ex : PyStr.split_char "010" ("ab" +:+ String "010" "" +:+ String "010" "c") = ["ab"; ""; "c"].
Proof. reflexivity. Qed.

Example split_ws_ex : PyStr.split_ws "  df.corr()   plot " = ["df.corr()"; "plot"].
Proof. reflexivity. Qed.

Example remove_ex : PyStr.remove_all "ab" "xababyaab" = "xya".
Proof. reflexivity. Qed.

Example find_ex : PyStr.find "``" "a``b``" 2 = 4 /\ PyStr.find "z" "abc" 0 = -1 /\ PyStr.find "" "abc" 3 = 3.
Proof. repeat split; reflexivity. Qed.

Example of_Z_ex : PyStr.of_Z 15 = "15" /\ PyStr.of_Z 0 = "0" /\ PyStr.of_Z (-3) = "-3".
Proof. repeat split; reflexivity. Qed.

Example last_ex : PyStr.last_chars 3 "abcdef" = "def" /\ PyStr.last_chars 9 "abc" = "abc".
Proof. repeat split; reflexivity. Qed.

Example completion_ex1 :
  _check_analysis_completion [] "The analysis is complete and comprehensive" 2 3 ∅
  = {| should_stop := true;
       reason := "AI indicated completion with signal: 'analysis is complete'" |}.
Proof. vm_compute. reflexivity. Qed.

Example completion_ex2 :
  _check_analysis_completion [] "EXPLANATION: load the data" 6 3
    {[ "data_exploration"; "correlations"; "patterns"; "visualization"; "statistics" ]}
  = {| should_stop := true;
       reason := "Comprehensive coverage achieved: 4 core topics covered" |}.
Proof. vm_compute. reflexivity. Qed.

Example parse_ex1 :
  _parse_ai_response labeled_ex
  = ("Look at the shape.", "import pandas as pd" +:+ nl +:+ "print(df.shape)").
Proof. vm_compute. reflexivity. Qed.

Example parse_ex2 :
  _parse_ai_response ("Here it is:" +:+ nl +:+ "```python" +:+ nl +:+ "x = 1" +:+ nl +:+ "```" +:+ nl +:+ "done")
  = ("Here it is:", "x = 1").
Proof. vm_compute. reflexivity. Qed.

Example parse_ex3 :
  _parse_ai_response "ANALYSIS_COMPLETE" = ("ANALYSIS_COMPLETE", "")
  /\ _parse_ai_response " print(1/0) " = ("", "print(1/0)").
Proof. split; vm_compute; reflexivity. Qed.

(** ** The completion check *)

Lemma find_none_existsb {A} (p : A → bool) (l : list A) :
  existsb p l = false → List.find p l = None.
Proof.
  induction l as [|x l IH]; simpl; [reflexivity|].
  destruct (p x); simpl; [discriminate | exact IH].
Qed.

Lemma find_some_existsb {A} (p : A → bool) (l : list A) :
  existsb p l = true → ∃ x, List.find p l = Some x.
Proof.
  induction l as [|x l IH]; simpl; [discriminate|].
  destruct (p x); simpl; eauto.
Qed.

Lemma signal_stops history ai_response iteration min_iterations topics :
  has_completion_signal ai_response = true →
  should_stop (_check_analysis_completion history ai_response iteration
                 min_iterations topics) = true.
Proof.
  intros Hsig. unfold _check_analysis_completion, matched_signal.
  destruct (find_some_existsb _ _ Hsig) as [signal ->]. reflexivity.
Qed.

Lemma no_signal_before_minimum history ai_response iteration min_iterations topics :
  has_completion_signal ai_response = false →
  iteration < min_iterations →
  _check_analysis_completion history ai_response iteration min_iterations topics
  = {| should_stop := false; reason := "Still in minimum iteration phase" |}.
Proof.
  intros Hsig Hlt. unfold _check_analysis_completion, matched_signal.
  rewrite (find_none_existsb _ _ Hsig).
  apply Z.ltb_lt in Hlt. rewrite Hlt. reflexivity.
Qed.

(** C2. Below [min_iterations] the completion check says continue unless
    the response contains a completion phrase, whatever the topics and the
    history: its verdict is exactly the presence of a phrase.  The phrase
    test comes first, so "The analysis is complete and comprehensive" at
    iteration 2 with [min_iterations = 3] stops. *)
Theorem completion_below_min_iterations
    (history : list SessionEntry) (ai_response : string)
    (iteration min_iterations : Z) (topics : gset string) :
  iteration < min_iterations →
  should_stop (_check_analysis_completion history ai_response iteration
                 min_iterations topics)
  = has_completion_signal ai_response
  ∧ should_stop (_check_analysis_completion history
                   "The analysis is complete and comprehensive" 2 3 topics)
    = true.
Proof.
  intros Hlt. split.
  - destruct (has_completion_signal ai_response) eqn:Hsig.
    + by apply signal_stops.
    + by rewrite no_signal_before_minimum.
  - by apply signal_stops.
Qed.

Lemma completion_below_min_iterations_witness :
  2 < 3
  ∧ should_stop (_check_analysis_completion [] "Let us plot the columns" 2 3
                   {[ "data_exploration"; "correlations"; "distributions";
                      "visualization"; "patterns" ]})
    = false.
Proof.
  split; [lia|].
  exact (proj1 (completion_below_min_iterations [] "Let us plot the columns" 2 3
                  {[ "data_exploration"; "correlations"; "distributions";
                     "visualization"; "patterns" ]} ltac:(lia))).
Defined.

(** C3. Without a completion phrase, from iteration 5 on and past the
    minimum, four or more covered core topics stop the analysis, and the
    reason gives their number. *)
Theorem completion_on_core_coverage
    (history : list SessionEntry) (ai_response : string)
    (iteration min_iterations : Z) (topics : gset string) :
  has_completion_signal ai_response = false →
  min_iterations ≤ iteration →
  5 ≤ iteration →
  (4 ≤ size (core_topics ∩ topics))%nat →
  _check_analysis_completion history ai_response iteration min_iterations topics
  = {| should_stop := true;
       reason := "Comprehensive coverage achieved: "
                 +:+ PyStr.of_Z (Z.of_nat (size (core_topics ∩ topics)))
                 +:+ " core topics covered" |}.
Proof.
  intros Hsig Hmin Hfive Hcore. unfold _check_analysis_completion, matched_signal.
  rewrite (find_none_existsb _ _ Hsig).
  assert ((iteration <? min_iterations) = false) as -> by (apply Z.ltb_ge; lia).
  assert ((4 <=? Z.of_nat (size (core_topics ∩ topics))) = true) as ->
    by (apply Z.leb_le; lia).
  assert ((5 <=? iteration) = true) as -> by (apply Z.leb_le; lia).
  reflexivity.
Qed.

Lemma completion_on_core_coverage_witness :
  _check_analysis_completion [] "Next, the outliers" 5 3
    {[ "data_exploration"; "correlations"; "distributions"; "visualization" ]}
  = {| should_stop := true;
       reason := "Comprehensive coverage achieved: 4 core topics covered" |}.
Proof.
  refine (eq_trans
            (completion_on_core_coverage [] "Next, the outliers" 5 3
               {[ "data_exploration"; "correlations"; "distributions";
                  "visualization" ]} _ _ _ _) _).
  - vm_compute. reflexivity.
  - lia.
  - lia.
  - vm_compute. lia.
  - vm_compute. reflexivity.
Defined.

(** ** The repetition detector *)

Lemma detect_short (h : list SessionEntry) :
  (length h < 4)%nat → _detect_repetitive_analysis h = false.
Proof.
  intros Hlen. unfold _detect_repetitive_analysis.
  by apply Nat.ltb_lt in Hlen as ->.
Qed.

Lemma last3_app {A} (pre : list A) (a b c : A) :
  last3 (pre ++ [a; b; c]) = [a; b; c].
Proof.
  unfold last3. rewrite length_app. simpl.
  replace (length pre + 3 - 3)%nat with (length pre) by lia.
  by rewrite drop_app_length.
Qed.

(** With four entries or more, the verdict only depends on the last three:
    the first of them must be similar to both of the others. *)
Lemma detect_last_three (pre : list SessionEntry) (a b c : SessionEntry) :
  pre ≠ [] →
  _detect_repetitive_analysis (pre ++ [a; b; c])
  = similar (code a) (code b) && similar (code a) (code c).
Proof.
  intros Hpre. unfold _detect_repetitive_analysis.
  assert ((length (pre ++ [a; b; c]) <? 4)%nat = false) as ->.
  { apply Nat.ltb_ge. rewrite length_app. destruct pre; [done|]. simpl. lia. }
  rewrite last3_app. simpl.
  destruct (similar (code a) (code b)), (similar (code a) (code c)),
    (similar (code b) (code c)); reflexivity.
Qed.

(** C6 (as amended). On the history of three steps where the first two
    are similar and the third is similar to neither, the detector answers
    false, and it still does once any fourth step is appended: no entry of
    the last three has two similar successors. *)
Theorem repetition_not_detected_on_one_similar_pair (e1 e2 e3 e4 : SessionEntry) :
  similar (code e1) (code e2) = true →
  similar (code e1) (code e3) = false →
  similar (code e2) (code e3) = false →
  _detect_repetitive_analysis [e1; e2; e3] = false
  ∧ _detect_repetitive_analysis [e1; e2; e3; e4] = false.
Proof.
  intros _ _ H23. split.
  - apply detect_short. simpl. lia.
  - change [e1; e2; e3; e4] with ([e1] ++ [e2; e3; e4]).
    rewrite detect_last_three by done. by rewrite H23.
Qed.

Lemma repetition_not_detected_on_one_similar_pair_witness :
  similar corr_code corr_plot_code = true
  ∧ similar corr_code describe_code = false
  ∧ similar corr_plot_code describe_code = false
  ∧ _detect_repetitive_analysis
      [entry_of_code corr_code; entry_of_code corr_plot_code;
       entry_of_code describe_code; entry_of_code corr_plot_code] = false.
Proof.
  assert (H12 : similar corr_code corr_plot_code = true) by (vm_compute; reflexivity).
  assert (H13 : similar corr_code describe_code = false) by (vm_compute; reflexivity).
  assert (H23 : similar corr_plot_code describe_code = false) by (vm_compute; reflexivity).
  split; [exact H12|]. split; [exact H13|]. split; [exact H23|].
  exact (proj2 (repetition_not_detected_on_one_similar_pair
                  (entry_of_code corr_code) (entry_of_code corr_plot_code)
                  (entry_of_code describe_code) (entry_of_code corr_plot_code)
                  H12 H13 H23)).
Defined.

(** C6, the claim as stated, fails: with the three snippets of the
    scenario, and with longer ones that do share eleven words, the
    detector answers false, before and after a fourth step. *)
Lemma repetition_scenario_counterexample :
  _detect_repetitive_analysis
    [entry_of_code "df.corr()"; entry_of_code "df.corr() plot";
     entry_of_code "df.describe()"] = false
  ∧ _detect_repetitive_analysis
      [entry_of_code "df.corr()"; entry_of_code "df.corr() plot";
       entry_of_code "df.describe()"; entry_of_code "df.corr() plot"] = false
  ∧ ¬ (∀ e1 e2 e3 e4 : SessionEntry,
         similar (code e1) (code e2) = true →
         similar (code e1) (code e3) = false →
         similar (code e2) (code e3) = false →
         _detect_repetitive_analysis [e1; e2; e3; e4] = true).
Proof.
  split; [vm_compute; reflexivity|]. split; [vm_compute; reflexivity|].
  intros H.
  specialize (H (entry_of_code corr_code) (entry_of_code corr_plot_code)
                (entry_of_code describe_code) (entry_of_code corr_plot_code)).
  vm_compute in H. specialize (H eq_refl eq_refl eq_refl). discriminate H.
Qed.

(** ** The summary *)

(** C7, the claim as stated, fails: one core topic and three others give
    the verdict "Comprehensive". *)
Lemma quality_counts_all_topics_counterexample :
  analysis_quality one_core_three_others = "Comprehensive"
  ∧ size (core_topics ∩ one_core_three_others) = 1%nat
  ∧ ¬ (∀ topics : gset string,
         analysis_quality topics = "Comprehensive"
         ↔ (4 ≤ size (core_topics ∩ topics))%nat).
Proof.
  assert (Hq : analysis_quality one_core_three_others = "Comprehensive")
    by (vm_compute; reflexivity).
  assert (Hc : size (core_topics ∩ one_core_three_others) = 1%nat)
    by (vm_compute; reflexivity).
  split; [exact Hq|]. split; [exact Hc|].
  intros H. apply H in Hq. rewrite Hc in Hq. lia.
Qed.

(** C7 (as amended). The verdict printed by the summary is
    "Comprehensive" exactly when at least four topics of any kind are
    covered, and "Partial" otherwise. *)
Theorem quality_comprehensive_iff
    (set_order : gset string → list string) (history : list SessionEntry)
    (iteration sandbox_resets : Z) (topics : gset string) :
  (analysis_quality topics = "Comprehensive" ↔ (4 ≤ size topics)%nat)
  ∧ (analysis_quality topics = "Partial" ↔ (size topics < 4)%nat)
  ∧ "✅ Analysis quality: " +:+ analysis_quality topics
    ∈ _print_completion_summary set_order history iteration topics sandbox_resets.
Proof.
  unfold analysis_quality. split; [|split].
  - destruct (4 <=? size topics)%nat eqn:H.
    + apply Nat.leb_le in H. done.
    + apply Nat.leb_gt in H. split; [done | lia].
  - destruct (4 <=? size topics)%nat eqn:H.
    + apply Nat.leb_le in H. split; [done | lia].
    + apply Nat.leb_gt in H. done.
  - unfold _print_completion_summary. set_solver.
Qed.

(** ** The health probe *)

Lemma health_false_on_reported_error (err : string) :
  _check_sandbox_health true (ProbeReturned (Some err)) = false.
Proof. reflexivity. Qed.

Lemma health_false_on_timeout (msg : string) :
  PyStr.contains "timeout" (PyStr.lower msg) = true →
  _check_sandbox_health true (ProbeRaised msg) = false.
Proof.
  intros H. unfold _check_sandbox_health. rewrite H, orb_true_r. reflexivity.
Qed.

Lemma health_true_on_other_exception (msg : string) :
  PyStr.contains "sandbox was not found" msg = false →
  PyStr.contains "timeout" (PyStr.lower msg) = false →
  _check_sandbox_health true (ProbeRaised msg) = true.
Proof.
  intros H1 H2. unfold _check_sandbox_health. rewrite H1, H2. reflexivity.
Qed.

(** C9. The probe matches "timeout" in any capitalisation but "sandbox was
    not found" only as written: an exception that reads "Sandbox Was Not
    Found" leaves the sandbox reported healthy, while the error classifier
    recognises the same text. *)
Theorem health_probe_not_found_case_sensitive :
  _check_sandbox_health true (ProbeRaised "Sandbox Was Not Found") = true
  ∧ _check_sandbox_health true (ProbeRaised "sandbox was not found") = false
  ∧ _check_sandbox_health true (ProbeRaised "Request TimeOut") = false
  ∧ _handle_execution_error (py_str "Sandbox Was Not Found") 1 = true.
Proof. repeat split; vm_compute; reflexivity. Qed.

(** ** execute_code *)

Lemma execute_code_history (h : list SessionEntry) (c : string) (o : run_outcome) :
  let '(h', (ok, _)) := execute_code h c o in
  if ok then ∃ e, h' = h ++ [e] ∧ code e = c ∧ success e = true else h' = h.
Proof.
  unfold execute_code. destruct o as [msg | ex save now]; [done|].
  destruct (exec_error ex); [done|].
  destruct (0 <? exec_results ex)%nat; [destruct save|]; eauto.
Qed.

(** C4. A run that fails leaves the history as it was: no entry is
    appended for it, so no entry ever carries a false [success]. *)
Theorem execute_code_failure_not_recorded
    (h : list SessionEntry) (c : string) (o : run_outcome) :
  fst (snd (execute_code h c o)) = false →
  fst (execute_code h c o) = h.
Proof.
  intros Hfail. pose proof (execute_code_history h c o) as H.
  destruct (execute_code h c o) as [h' [ok lg]]. simpl in *. by subst ok.
Qed.

Lemma execute_code_failure_not_recorded_witness :
  execute_code [] "print(1/0)"
    (RunReturned {| exec_error := Some "ZeroDivisionError: division by zero";
                    exec_logs := PyObj true "";
                    exec_results := 0 |} None "2025-01-01T00:00:00")
  = ([], (false, PyObj true "ZeroDivisionError: division by zero"))
  ∧ fst (execute_code [] "print(1/0)"
           (RunReturned {| exec_error := Some "ZeroDivisionError: division by zero";
                           exec_logs := PyObj true "";
                           exec_results := 0 |} None "2025-01-01T00:00:00")) = [].
Proof.
  split; [reflexivity|].
  apply (execute_code_failure_not_recorded [] "print(1/0)"). reflexivity.
Defined.

(** ** Stripping and containment *)

Lemma prefix_cons (a b : ascii) (p s : string) :
  String.prefix (String a p) (String b s)
  = (if ascii_dec a b then String.prefix p s else false).
Proof. reflexivity. Qed.

Lemma prefix_empty_r (p : string) :
  p ≠ EmptyString → String.prefix p EmptyString = false.
Proof. destruct p; [done | reflexivity]. Qed.

Lemma ends_nonspace_tail (c : ascii) (p : string) :
  ends_nonspace (String c p) = true → ends_nonspace p = true.
Proof. destruct p; [reflexivity | simpl; auto]. Qed.

Lemma prefix_rstrip (p s : string) :
  ends_nonspace p = true →
  String.prefix p (PyStr.rstrip s) = String.prefix p s.
Proof.
  revert p. induction s as [|c s IH]; intros p Hp; [reflexivity|].
  destruct p as [|d p]; [by destruct (PyStr.rstrip (String c s))|].
  pose proof (IH p (ends_nonspace_tail _ _ Hp)) as IHp.
  simpl PyStr.rstrip. destruct (PyStr.rstrip s) as [|e r] eqn:Hr.
  - destruct (PyStr.is_space c) eqn:Hc.
    + rewrite prefix_cons. destruct (ascii_dec d c) as [->|]; [|reflexivity].
      rewrite <- IHp. destruct p as [|d' p]; [|reflexivity].
      simpl in Hp. by rewrite Hc in Hp.
    + rewrite !prefix_cons. destruct (ascii_dec d c); [exact IHp | reflexivity].
  - rewrite !prefix_cons. destruct (ascii_dec d c); [exact IHp | reflexivity].
Qed.

Lemma contains_cons (p : string) (c : ascii) (s : string) :
  PyStr.contains p (String c s)
  = String.prefix p (String c s) || PyStr.contains p s.
Proof. reflexivity. Qed.

Lemma contains_empty_r (p : string) :
  p ≠ EmptyString → PyStr.contains p EmptyString = false.
Proof. intros Hne. cbn [PyStr.contains]. by rewrite prefix_empty_r. Qed.

Lemma contains_rstrip (p s : string) :
  p ≠ EmptyString → ends_nonspace p = true →
  PyStr.contains p (PyStr.rstrip s) = PyStr.contains p s.
Proof.
  intros Hne Hp. induction s as [|c s IH]; [reflexivity|].
  pose proof (prefix_rstrip p (String c s) Hp) as Hpre.
  rewrite (contains_cons p c s), <- Hpre, <- IH.
  cbn [PyStr.rstrip]. destruct (PyStr.rstrip s) as [|e r].
  - rewrite (contains_empty_r p Hne), orb_false_r.
    destruct (PyStr.is_space c).
    + by rewrite contains_empty_r, prefix_empty_r.
    + by rewrite contains_cons, contains_empty_r, orb_false_r.
  - by rewrite contains_cons.
Qed.

Lemma contains_lstrip (p s : string) :
  starts_nonspace p = true →
  PyStr.contains p (PyStr.lstrip s) = PyStr.contains p s.
Proof.
  intros Hp. induction s as [|c s IH]; [reflexivity|].
  cbn [PyStr.lstrip]. destruct (PyStr.is_space c) eqn:Hc; [|reflexivity].
  rewrite IH, contains_cons.
  destruct p as [|d p]; [discriminate|]. rewrite prefix_cons.
  destruct (ascii_dec d c) as [->|]; [|reflexivity].
  simpl in Hp. by rewrite Hc in Hp.
Qed.

Lemma contains_strip (p s : string) :
  starts_nonspace p = true → ends_nonspace p = true →
  PyStr.contains p (PyStr.strip s) = PyStr.contains p s.
Proof.
  intros Hs He. unfold PyStr.strip.
  rewrite contains_rstrip, contains_lstrip; try done.
  by destruct p.
Qed.

(** ** The completion sentinel *)

Lemma sentinel_has_no_signal : has_completion_signal "ANALYSIS_COMPLETE" = false.
Proof. vm_compute. reflexivity. Qed.

Lemma sentinel_parses_as_explanation :
  _parse_ai_response "ANALYSIS_COMPLETE" = ("ANALYSIS_COMPLETE", "").
Proof. vm_compute. reflexivity. Qed.

Lemma sentinel_check_continues (history : list SessionEntry)
    (iteration min_iterations : Z) (topics : gset string) :
  iteration < 5 →
  should_stop (_check_analysis_completion history "ANALYSIS_COMPLETE" iteration
                 min_iterations topics) = false.
Proof.
  intros Hlt. unfold _check_analysis_completion, matched_signal.
  rewrite (find_none_existsb _ _ sentinel_has_no_signal).
  destruct (iteration <? min_iterations); [reflexivity|].
  assert ((5 <=? iteration) = false) as -> by (apply Z.leb_gt; lia).
  assert ((8 <? iteration) = false) as -> by (apply Z.ltb_ge; lia).
  rewrite andb_false_r. reflexivity.
Qed.

(** C10. A reply that contains ANALYSIS_COMPLETE anywhere is collapsed to
    that very token; the token matches no completion phrase, so below
    iteration 5 (under the thresholds of the coverage and the repetition
    rules) the completion check says continue, and the turn of the loop
    ends with a request for code, not with a [break]. *)
Theorem sentinel_does_not_stop (content : string) :
  PyStr.contains "ANALYSIS_COMPLETE" content = true →
  chat_with_ai (Some content) = Some "ANALYSIS_COMPLETE"
  ∧ has_completion_signal "ANALYSIS_COMPLETE" = false
  ∧ (∀ history iteration min_iterations topics,
       iteration < 5 →
       should_stop (_check_analysis_completion history "ANALYSIS_COMPLETE"
                      iteration min_iterations topics) = false)
  ∧ (∀ set_order min_iterations t st,
       model_reply t = Some content →
       _check_sandbox_health (has_sandbox st) (probe t) || sandbox_created t = true →
       iteration st + 1 < 5 →
       ∃ st', loop_body set_order min_iterations t st = inl st'
              ∧ iteration st' = iteration st + 1
              ∧ current_prompt st'
                = "Please provide executable Python code for the next analysis step.").
Proof.
  intros Hin.
  assert (Hchat : chat_with_ai (Some content) = Some "ANALYSIS_COMPLETE").
  { unfold chat_with_ai. by rewrite contains_strip, Hin. }
  split; [exact Hchat|]. split; [exact sentinel_has_no_signal|].
  split; [intros; by apply sentinel_check_continues|].
  intros set_order min_iterations t st Hreply Hhealth Hlt.
  unfold loop_body. cbn [iteration has_sandbox session_history
    analysis_topics_covered].
  assert (negb (_check_sandbox_health (has_sandbox st) (probe t))
          && negb (sandbox_created t) = false) as ->.
  { destruct (_check_sandbox_health _ _), (sandbox_created t); done. }
  rewrite Hreply, Hchat. cbv beta iota.
  rewrite sentinel_check_continues by done.
  rewrite sentinel_parses_as_explanation. cbv beta iota.
  eexists. split; [reflexivity|]. split; reflexivity.
Qed.

Lemma sentinel_does_not_stop_witness :
  PyStr.contains "ANALYSIS_COMPLETE" "Nothing is left. ANALYSIS_COMPLETE, thanks."
  = true
  ∧ chat_with_ai (Some "Nothing is left. ANALYSIS_COMPLETE, thanks.")
    = Some "ANALYSIS_COMPLETE".
Proof.
  assert (H : PyStr.contains "ANALYSIS_COMPLETE"
                "Nothing is left. ANALYSIS_COMPLETE, thanks." = true)
    by (vm_compute; reflexivity).
  split; [exact H|].
  exact (proj1 (sentinel_does_not_stop
                  "Nothing is left. ANALYSIS_COMPLETE, thanks." H)).
Defined.

(** ** The loop *)

(** Whenever the code of a turn is run, the model has just answered, and
    that resets [consecutive_failures]: the counter reads at most 1 when
    it is compared with 2, and the turn never leaves by that [break]. *)
Lemma loop_body_exit_not_execution_failures
    (set_order : gset string → list string) (min_iterations : Z)
    (t : Turn) (st st' : State) (e : Exit) :
  loop_body set_order min_iterations t st = inr (st', e) →
  e ≠ ExecutionFailures.
Proof.
  unfold loop_body.
  destruct (negb _ && negb _); [intros [= _ <-]; done|].
  destruct (chat_with_ai (model_reply t)) as [[|c r]|].
  - destruct (3 <=? _); [intros [= _ <-]; done | done].
  - destruct (should_stop _); [intros [= _ <-]; done|].
    destruct (_parse_ai_response _) as [explanation code'].
    destruct (String.eqb code' ""); [done|].
    destruct (execute_code _ _ _) as [h [ok lg]].
    destruct ok; [done|].
    destruct (_handle_execution_error lg _); done.
  - destruct (3 <=? _); [intros [= _ <-]; done | done].
Qed.

Lemma while_loop_exit_not_execution_failures
    (set_order : gset string → list string) (fuel : nat) (world : Z → Turn)
    (max_iterations min_iterations : Z) (st : State) :
  snd (while_loop set_order fuel world max_iterations min_iterations st)
  ≠ ExecutionFailures.
Proof.
  revert st. induction fuel as [|fuel IH]; intros st; simpl.
  - by destruct (iteration st <? max_iterations).
  - destruct (iteration st <? max_iterations); [|done].
    destruct (loop_body _ _ _ _) as [st'|[st' e]] eqn:Hbody; [apply IH|].
    simpl. by eapply loop_body_exit_not_execution_failures.
Qed.

(** A turn that does not [break] adds one to [iteration], so the fuel given
    by [execute_with_automation] never runs out before the loop condition
    fails: any larger amount gives the same run. *)
Lemma loop_body_iteration
    (set_order : gset string → list string) (min_iterations : Z)
    (t : Turn) (st st' : State) :
  loop_body set_order min_iterations t st = inl st' →
  iteration st' = iteration st + 1.
Proof.
  unfold loop_body.
  destruct (negb _ && negb _); [done|].
  destruct (chat_with_ai (model_reply t)) as [[|c r]|].
  - destruct (3 <=? _); [done | by intros [= <-]].
  - destruct (should_stop _); [done|].
    destruct (_parse_ai_response _) as [explanation code'].
    destruct (String.eqb code' ""); [by intros [= <-]|].
    destruct (execute_code _ _ _) as [h [ok lg]].
    destruct (negb _ && _); [done | by intros [= <-]].
  - destruct (3 <=? _); [done | by intros [= <-]].
Qed.

Lemma while_loop_enough_fuel
    (set_order : gset string → list string) (world : Z → Turn)
    (max_iterations min_iterations : Z) (fuel1 fuel2 : nat) (st : State) :
  (Z.to_nat (max_iterations - iteration st) ≤ fuel1)%nat →
  (Z.to_nat (max_iterations - iteration st) ≤ fuel2)%nat →
  while_loop set_order fuel1 world max_iterations min_iterations st
  = while_loop set_order fuel2 world max_iterations min_iterations st.
Proof.
  revert fuel2 st. induction fuel1 as [|fuel1 IH]; intros fuel2 st H1 H2.
  - destruct fuel2 as [|fuel2]; [reflexivity|]. simpl.
    destruct (iteration st <? max_iterations) eqn:Hlt; [|reflexivity].
    apply Z.ltb_lt in Hlt. lia.
  - simpl. destruct (iteration st <? max_iterations) eqn:Hlt;
      [|by destruct fuel2; simpl; rewrite Hlt].
    apply Z.ltb_lt in Hlt.
    destruct fuel2 as [|fuel2]; [lia|]. simpl.
    apply Z.ltb_lt in Hlt as Hlt'. rewrite Hlt'.
    destruct (loop_body _ _ _ _) as [st'|stopped] eqn:Hbody; [|reflexivity].
    apply loop_body_iteration in Hbody. apply IH; lia.
Qed.

(** No run ends on repeated execution failures. *)
Lemma execution_failures_exit_unreachable
    (set_order : gset string → list string) (world : Z → Turn) (self : State)
    (initial_prompt : string) (max_iterations min_iterations : Z) :
  snd (execute_with_automation set_order world self initial_prompt
         max_iterations min_iterations) ≠ ExecutionFailures.
Proof. apply while_loop_exit_not_execution_failures. Qed.

(** C1. In a run where the model answers at every step and the code fails
    at every step with an error that is not recoverable, the loop does not
    stop at the second failure: it goes on to the limit of 15 iterations,
    and the counter of failures reads 1 at the end. *)
Theorem unrecoverable_failures_run_to_the_limit :
  let result :=
    execute_with_automation elements failing_world fresh_analyzer
      "Analyze the data" 15 3 in
  _handle_execution_error (PyObj true division_error) 1 = false
  ∧ _handle_execution_error (PyObj true division_error) 2 = false
  ∧ snd result = LimitReached
  ∧ iteration (fst result) = 15
  ∧ consecutive_failures (fst result) = 1
  ∧ session_history (fst result) = [].
Proof.
  cbv zeta.
  split; [vm_compute; reflexivity|]. split; [vm_compute; reflexivity|].
  split; [vm_compute; reflexivity|]. split; [vm_compute; reflexivity|].
  split; vm_compute; reflexivity.
Qed.

(** ** Appending, slicing and containment *)

Lemma append_cons (c : ascii) (s t : string) :
  String c s +:+ t = String c (s +:+ t).
Proof. reflexivity. Qed.

Lemma append_assoc (s t u : string) : (s +:+ t) +:+ u = s +:+ t +:+ u.
Proof.
  induction s as [|c s IH]; [reflexivity|].
  by rewrite !append_cons, IH.
Qed.

Lemma append_empty_r (s : string) : s +:+ "" = s.
Proof. induction s as [|c s IH]; [reflexivity|]. by rewrite append_cons, IH. Qed.

Lemma length_append (s t : string) :
  String.length (s +:+ t) = (String.length s + String.length t)%nat.
Proof.
  induction s as [|c s IH]; [reflexivity|].
  rewrite append_cons. simpl. by rewrite IH.
Qed.

Lemma prefix_append (p s : string) : String.prefix p (p +:+ s) = true.
Proof.
  induction p as [|c p IH]; [by destruct s|].
  rewrite append_cons, prefix_cons. by destruct (ascii_dec c c).
Qed.

Lemma contains_here (p s : string) : PyStr.contains p (p +:+ s) = true.
Proof.
  destruct (p +:+ s) eqn:E; cbn [PyStr.contains]; rewrite <- E, prefix_append;
    reflexivity.
Qed.

Lemma contains_here2 (p q s : string) :
  PyStr.contains (p +:+ q) (p +:+ q +:+ s) = true.
Proof. rewrite <- append_assoc. apply contains_here. Qed.

Lemma contains_skip (p a s : string) :
  PyStr.contains p s = true → PyStr.contains p (a +:+ s) = true.
Proof.
  intros H. induction a as [|c a IH]; [exact H|].
  rewrite append_cons, contains_cons, IH. apply orb_true_r.
Qed.

Lemma take_drop (n : nat) (s : string) : PyStr.take n s +:+ PyStr.drop n s = s.
Proof.
  revert s. induction n as [|n IH]; intros [|c s]; try reflexivity.
  cbn [PyStr.take PyStr.drop]. by rewrite append_cons, IH.
Qed.

Lemma length_take (n : nat) (s : string) :
  String.length (PyStr.take n s) = (n `min` String.length s)%nat.
Proof.
  revert s. induction n as [|n IH]; intros [|c s]; try reflexivity.
  cbn [PyStr.take String.length]. rewrite IH. lia.
Qed.

Lemma length_drop (n : nat) (s : string) :
  String.length (PyStr.drop n s) = (String.length s - n)%nat.
Proof.
  revert s. induction n as [|n IH]; intros [|c s]; try reflexivity.
  cbn [PyStr.drop String.length]. by rewrite IH.
Qed.

(** [s[:n]] starts [s] and [s[-n:]] ends it, each with [n] characters
    unless [s] is shorter. *)
Lemma take_is_head (n : nat) (s : string) :
  (∃ rest, s = PyStr.take n s +:+ rest)
  ∧ String.length (PyStr.take n s) = (n `min` String.length s)%nat.
Proof.
  split; [|apply length_take]. exists (PyStr.drop n s). by rewrite take_drop.
Qed.

Lemma last_chars_is_tail (n : nat) (s : string) :
  (∃ before, s = before +:+ PyStr.last_chars n s)
  ∧ String.length (PyStr.last_chars n s) = (n `min` String.length s)%nat.
Proof.
  unfold PyStr.last_chars. split.
  - exists (PyStr.take (String.length s - n) s). by rewrite take_drop.
  - rewrite length_drop. lia.
Qed.

(** ** The prompt generator *)

Lemma order_elem (set_order : gset string → list string) (s : gset string)
    (x : string) :
  lists_elements set_order → x ∈ set_order s ↔ x ∈ s.
Proof. intros H. rewrite (H s). apply elem_of_elements. Qed.

Ltac find_piece :=
  repeat first [ apply contains_here2 | apply contains_here | apply contains_skip ].

(** C8 (as amended). The prompt is a function of the iteration, the last
    output, the context and the topics. It contains the number of the
    next step, the first 400 characters of the last output (its head, not
    its tail; "No output" when the output is false), the last 800
    characters of the context ("Starting analysis" when it is empty), the
    covered topics and, as remaining, the topics of the fixed set of seven
    that are not covered. *)
Theorem prompt_contents (set_order : gset string → list string)
    (analysis_context : string) (iteration : Z) (logs : pyobj)
    (topics_covered : gset string) :
  lists_elements set_order →
  let prompt :=
    _generate_intelligent_prompt set_order analysis_context iteration logs
      topics_covered in
  let remaining := set_order (all_topics ∖ topics_covered) in
  PyStr.contains
    ("INTELLIGENT ANALYSIS CONTINUATION - Step " +:+ PyStr.of_Z (iteration + 1))
    prompt = true
  ∧ PyStr.contains
      (if truthy logs then PyStr.take 400 (str logs) else "No output") prompt
    = true
  ∧ PyStr.contains
      (if negb (String.eqb analysis_context "")
       then PyStr.last_chars 800 analysis_context else "Starting analysis")
      prompt = true
  ∧ PyStr.contains
      ("✅ Completed topics: "
       +:+ (if (0 <? size topics_covered)%nat
            then PyStr.join ", " (set_order topics_covered) else "None yet"))
      prompt = true
  ∧ PyStr.contains
      ("📋 Remaining areas: "
       +:+ (if (0 <? size (all_topics ∖ topics_covered))%nat
            then PyStr.join ", " remaining else "All major areas covered"))
      prompt = true
  ∧ (∀ topic, topic ∈ set_order topics_covered ↔ topic ∈ topics_covered)
  ∧ (∀ topic, topic ∈ remaining ↔ topic ∈ all_topics ∧ topic ∉ topics_covered)
  ∧ NoDup remaining.
Proof.
  intros Horder. cbv zeta.
  unfold _generate_intelligent_prompt, previous_results, context_excerpt,
    topic_list.
  split; [find_piece|]. split; [find_piece|]. split; [find_piece|].
  split; [find_piece|]. split; [find_piece|].
  split; [intros topic; by apply order_elem|].
  split.
  - intros topic. rewrite order_elem by done. set_solver.
  - rewrite (Horder _). apply NoDup_elements.
Qed.

Lemma elements_lists_elements : lists_elements elements.
Proof. intros s. reflexivity. Qed.

Lemma prompt_contents_witness :
  lists_elements elements
  ∧ PyStr.contains "INTELLIGENT ANALYSIS CONTINUATION - Step 4"
      (_generate_intelligent_prompt elements "Step 3: 12 rows" 3
         (PyObj true "12 rows") {[ "correlations" ]}) = true.
Proof.
  split; [exact elements_lists_elements|].
  exact (proj1 (prompt_contents elements "Step 3: 12 rows" 3
                  (PyObj true "12 rows") {[ "correlations" ]}
                  elements_lists_elements)).
Defined.

(** C8, the claim as stated, fails: of an output of 401 characters the
    prompt holds the first 400, and neither its last 400 characters nor
    even its last one. *)
Lemma prompt_keeps_head_counterexample :
  PyStr.last_chars 400 (str long_output) = replicate_char 399 "y" +:+ "~"
  ∧ PyStr.contains (PyStr.last_chars 400 (str long_output)) long_output_prompt
    = false
  ∧ PyStr.contains (PyStr.last_chars 1 (str long_output)) long_output_prompt
    = false
  ∧ PyStr.take 400 (str long_output) = replicate_char 400 "y"
  ∧ PyStr.contains (PyStr.take 400 (str long_output)) long_output_prompt = true.
Proof. repeat split; vm_compute; reflexivity. Qed.

(** ** The response parser *)

Example labeled_response_ex :
  labeled_response " Look at the shape." ["import pandas as pd"; "print(df.shape)"]
  = labeled_ex.
Proof. reflexivity. Qed.

(** C5, the claim as stated, fails: of an explanation on two lines the
    parser keeps the first line only, and a line of code that starts with
    CODE: is dropped from the code. *)
Lemma parse_labeled_counterexample :
  _parse_ai_response two_line_explanation
  = ("First we load the data.", "print(df.shape)")
  ∧ _parse_ai_response code_named_code = ("Count the rows.", "print(CODE)").
Proof. split; vm_compute; reflexivity. Qed.

Lemma lstrip_starts (p s : string) :
  starts_nonspace p = true → PyStr.lstrip (p +:+ s) = p +:+ s.
Proof.
  destruct p as [|c p]; [discriminate|]. simpl starts_nonspace. intros Hc.
  rewrite append_cons. cbn [PyStr.lstrip].
  by destruct (PyStr.is_space c).
Qed.

Lemma append_nonempty_r (a t : string) : t ≠ "" → a +:+ t ≠ "".
Proof. destruct a as [|c a]; [done|]. by rewrite append_cons. Qed.

Lemma rstrip_append (a t : string) :
  PyStr.rstrip t ≠ "" → PyStr.rstrip (a +:+ t) = a +:+ PyStr.rstrip t.
Proof.
  intros Ht. induction a as [|c a IH]; [reflexivity|].
  rewrite !append_cons. cbn [PyStr.rstrip]. rewrite IH.
  destruct (a +:+ PyStr.rstrip t) eqn:E; [|reflexivity].
  by apply append_nonempty_r in E.
Qed.

Lemma single_line_append (a b : string) :
  single_line a = true → single_line b = true → single_line (a +:+ b) = true.
Proof.
  intros Ha Hb. induction a as [|c a IH]; [exact Hb|].
  rewrite append_cons. cbn [single_line] in *.
  apply andb_true_iff in Ha as [-> Ha]. by apply IH.
Qed.

Lemma split_char_line (line rest : string) :
  single_line line = true →
  PyStr.split_char "010" (line +:+ nl +:+ rest)
  = line :: PyStr.split_char "010" rest.
Proof.
  intros Hl. induction line as [|c line IH]; [reflexivity|].
  cbn [single_line] in Hl. apply andb_true_iff in Hl as [Hc Hl].
  rewrite append_cons. cbn [PyStr.split_char].
  destruct (Ascii.eqb c "010"); [discriminate|]. by rewrite IH.
Qed.

Lemma split_char_last (line : string) :
  single_line line = true → PyStr.split_char "010" line = [line].
Proof.
  intros Hl. induction line as [|c line IH]; [reflexivity|].
  cbn [single_line] in Hl. apply andb_true_iff in Hl as [Hc Hl].
  cbn [PyStr.split_char].
  destruct (Ascii.eqb c "010"); [discriminate|]. by rewrite IH.
Qed.

Lemma plain_code_line_single (line : string) :
  plain_code_line line = true → single_line line = true.
Proof.
  unfold plain_code_line. intros H.
  by repeat (apply andb_true_iff in H as [H _]).
Qed.

Lemma split_unlines (lines : list string) (last : string) :
  forallb plain_code_line lines = true → single_line last = true →
  PyStr.split_char "010" (unlines lines +:+ last) = lines ++ [last].
Proof.
  intros Hls Hlast. induction lines as [|l lines IH].
  - by apply split_char_last.
  - cbn [forallb] in Hls. apply andb_true_iff in Hls as [Hl Hls].
    cbn [unlines]. rewrite !append_assoc.
    rewrite split_char_line by by apply plain_code_line_single.
    by rewrite IH.
Qed.

Lemma remove_go_skip (old a s : string) :
  PyStr.remove_go old (String.length a) (a +:+ s) = PyStr.remove_go old O s.
Proof. induction a as [|c a IH]; [reflexivity|]. rewrite append_cons. exact IH. Qed.

Lemma remove_all_prefix (old s : string) :
  old ≠ "" → PyStr.remove_all old (old +:+ s) = PyStr.remove_all old s.
Proof.
  intros Hne. destruct old as [|c old]; [done|].
  unfold PyStr.remove_all. rewrite append_cons. cbn [PyStr.remove_go].
  rewrite <- append_cons, prefix_append. cbn [String.length Nat.pred].
  apply remove_go_skip.
Qed.

Lemma remove_all_absent (old s : string) :
  PyStr.contains old s = false → PyStr.remove_all old s = s.
Proof.
  unfold PyStr.remove_all. induction s as [|c s IH]; [reflexivity|].
  rewrite contains_cons. intros [Hp Hs]%orb_false_iff.
  cbn [PyStr.remove_go]. by rewrite Hp, IH.
Qed.

(** *** The line loop on the lines of a labeled response *)

Lemma foldl_cons {A B} (f : A → B → A) (a : A) (x : B) (l : list B) :
  foldl f a (x :: l) = foldl f (f a x) l.
Proof. reflexivity. Qed.

Lemma parse_line_explanation (st : LineState) (e : string) :
  PyStr.contains "EXPLANATION:" e = false →
  parse_line st ("EXPLANATION:" +:+ e)
  = {| ls_explanation := PyStr.strip e;
       ls_code := ls_code st;
       ls_in_code_block := ls_in_code_block st |}.
Proof.
  intros He. unfold parse_line, PyStr.startswith.
  rewrite prefix_append, remove_all_prefix by done.
  by rewrite remove_all_absent.
Qed.

Lemma parse_line_plain (st : LineState) (line : string) :
  plain_code_line line = true → ls_in_code_block st = true →
  parse_line st line
  = {| ls_explanation := ls_explanation st;
       ls_code := ls_code st +:+ line +:+ nl;
       ls_in_code_block := true |}.
Proof.
  unfold plain_code_line, parse_line. intros H Hin.
  repeat (apply andb_true_iff in H as [H ?]).
  repeat match goal with
         | Hn : negb ?b = true |- _ => apply negb_true_iff in Hn; rewrite Hn
         end.
  by rewrite Hin.
Qed.

Lemma parse_line_blank (st : LineState) :
  ls_in_code_block st = false → parse_line st "" = st.
Proof. intros Hout. unfold parse_line. cbn. by rewrite Hout. Qed.

Lemma parse_line_code_header (st : LineState) : parse_line st "CODE:" = st.
Proof. reflexivity. Qed.

Lemma parse_line_fence_open (st : LineState) :
  parse_line st "```python"
  = {| ls_explanation := ls_explanation st;
       ls_code := ls_code st;
       ls_in_code_block := true |}.
Proof. reflexivity. Qed.

Lemma parse_line_fence_close (st : LineState) :
  ls_in_code_block st = true →
  parse_line st "```"
  = {| ls_explanation := ls_explanation st;
       ls_code := ls_code st;
       ls_in_code_block := false |}.
Proof. intros Hin. unfold parse_line. cbn. by rewrite Hin. Qed.

Lemma parse_plain_lines (lines : list string) (st : LineState) :
  forallb plain_code_line lines = true → ls_in_code_block st = true →
  foldl parse_line st lines
  = {| ls_explanation := ls_explanation st;
       ls_code := ls_code st +:+ unlines lines;
       ls_in_code_block := true |}.
Proof.
  revert st. induction lines as [|l lines IH]; intros st Hls Hin.
  - destruct st as [ex cd blk]. simpl in *. subst blk.
    by rewrite append_empty_r.
  - cbn [forallb] in Hls. apply andb_true_iff in Hls as [Hl Hls].
    rewrite foldl_cons, (parse_line_plain st l Hl Hin), IH by done.
    cbn [ls_explanation ls_code unlines]. by rewrite !append_assoc.
Qed.

Lemma labeled_response_end (e : string) (lines : list string) :
  labeled_response e lines
  = ("EXPLANATION:" +:+ e +:+ nl +:+ nl +:+ "CODE:" +:+ nl +:+ "```python"
     +:+ nl +:+ unlines lines) +:+ "```".
Proof. unfold labeled_response. by rewrite !append_assoc. Qed.

Lemma strip_labeled_response (e : string) (lines : list string) :
  PyStr.strip (labeled_response e lines) = labeled_response e lines.
Proof.
  unfold PyStr.strip.
  assert (PyStr.lstrip (labeled_response e lines) = labeled_response e lines)
    as -> by (unfold labeled_response; by apply lstrip_starts).
  rewrite labeled_response_end, rstrip_append; [reflexivity | discriminate].
Qed.

Lemma split_char_blank (rest : string) :
  PyStr.split_char "010" (nl +:+ rest) = "" :: PyStr.split_char "010" rest.
Proof. exact (split_char_line "" rest eq_refl). Qed.

Lemma labeled_response_lines (e : string) (lines : list string) :
  single_line e = true → forallb plain_code_line lines = true →
  PyStr.split_char "010" (labeled_response e lines)
  = ("EXPLANATION:" +:+ e) :: "" :: "CODE:" :: "```python" :: lines ++ ["```"].
Proof.
  intros He Hls. unfold labeled_response.
  rewrite <- (append_assoc "EXPLANATION:" e).
  rewrite split_char_line by by apply single_line_append.
  rewrite split_char_blank.
  rewrite (split_char_line "CODE:") by reflexivity.
  rewrite (split_char_line "```python") by reflexivity.
  by rewrite split_unlines.
Qed.

(** C5 (as amended). On a response in the labeled format whose
    explanation stands on the line of the marker and does not repeat the
    marker, and whose block of code has no line that starts with a marker
    or is a fence, the parser returns that explanation and that code, up
    to the white space around them. The parser is a total function: it
    returns a pair on every response. *)
Theorem parse_labeled_response (e : string) (lines : list string) :
  single_line e = true →
  PyStr.contains "EXPLANATION:" e = false →
  forallb plain_code_line lines = true →
  _parse_ai_response (labeled_response e lines)
  = (PyStr.strip e, PyStr.strip (unlines lines)).
Proof.
  intros He Hmarker Hls. unfold _parse_ai_response.
  assert (PyStr.contains "EXPLANATION:" (labeled_response e lines) = true) as ->
    by apply contains_here.
  rewrite strip_labeled_response, labeled_response_lines by done.
  rewrite foldl_cons, parse_line_explanation by done.
  rewrite foldl_cons, parse_line_blank by reflexivity.
  rewrite foldl_cons, parse_line_code_header.
  rewrite foldl_cons, parse_line_fence_open.
  rewrite foldl_app, (parse_plain_lines lines) by (assumption || reflexivity).
  rewrite foldl_cons, parse_line_fence_close by reflexivity.
  reflexivity.
Qed.

Lemma parse_labeled_response_witness :
  single_line " Look at the shape." = true
  ∧ PyStr.contains "EXPLANATION:" " Look at the shape." = false
  ∧ forallb plain_code_line ["import pandas as pd"; "print(df.shape)"] = true
  ∧ _parse_ai_response
      (labeled_response " Look at the shape."
         ["import pandas as pd"; "print(df.shape)"])
    = ("Look at the shape.", "import pandas as pd" +:+ nl +:+ "print(df.shape)").
Proof.
  assert (H1 : single_line " Look at the shape." = true) by reflexivity.
  assert (H2 : PyStr.contains "EXPLANATION:" " Look at the shape." = false)
    by reflexivity.
  assert (H3 : forallb plain_code_line ["import pandas as pd"; "print(df.shape)"]
               = true) by (vm_compute; reflexivity).
  split; [exact H1|]. split; [exact H2|]. split; [exact H3|].
  exact (parse_labeled_response " Look at the shape."
           ["import pandas as pd"; "print(df.shape)"] H1 H2 H3).
Defined.

(** * Further properties of the controller *)

(** ** Lower-casing and stripping *)

Lemma lower_char_idemp (c : ascii) :
  PyStr.lower_char (PyStr.lower_char c) = PyStr.lower_char c.
Proof. destruct c as [[] [] [] [] [] [] [] []]; reflexivity. Qed.

Lemma is_space_lower_char (c : ascii) :
  PyStr.is_space (PyStr.lower_char c) = PyStr.is_space c.
Proof. destruct c as [[] [] [] [] [] [] [] []]; reflexivity. Qed.

Lemma lower_idemp (s : string) : PyStr.lower (PyStr.lower s) = PyStr.lower s.
Proof.
  induction s as [|c s IH]; [reflexivity|].
  cbn [PyStr.lower]. by rewrite lower_char_idemp, IH.
Qed.

Lemma lower_append (s t : string) :
  PyStr.lower (s +:+ t) = PyStr.lower s +:+ PyStr.lower t.
Proof.
  induction s as [|c s IH]; [reflexivity|].
  rewrite append_cons. cbn [PyStr.lower]. by rewrite append_cons, IH.
Qed.

Lemma lower_lstrip (s : string) :
  PyStr.lower (PyStr.lstrip s) = PyStr.lstrip (PyStr.lower s).
Proof.
  induction s as [|c s IH]; [reflexivity|].
  cbn [PyStr.lstrip PyStr.lower]. rewrite is_space_lower_char.
  by destruct (PyStr.is_space c).
Qed.

Lemma lower_rstrip (s : string) :
  PyStr.lower (PyStr.rstrip s) = PyStr.rstrip (PyStr.lower s).
Proof.
  induction s as [|c s IH]; [reflexivity|].
  cbn [PyStr.rstrip PyStr.lower]. rewrite <- IH, is_space_lower_char.
  destruct (PyStr.rstrip s) as [|d r]; [by destruct (PyStr.is_space c)|].
  reflexivity.
Qed.

Lemma lower_strip (s : string) :
  PyStr.lower (PyStr.strip s) = PyStr.strip (PyStr.lower s).
Proof. unfold PyStr.strip. by rewrite lower_rstrip, lower_lstrip. Qed.

Lemma rstrip_idemp (s : string) : PyStr.rstrip (PyStr.rstrip s) = PyStr.rstrip s.
Proof.
  induction s as [|c s IH]; [reflexivity|].
  cbn [PyStr.rstrip]. destruct (PyStr.rstrip s) as [|d r] eqn:Hr.
  - destruct (PyStr.is_space c) eqn:Hc; [reflexivity|].
    cbn [PyStr.rstrip]. by rewrite Hc.
  - change (PyStr.rstrip (String c (String d r)))
      with (match PyStr.rstrip (String d r) with
            | "" => if PyStr.is_space c then "" else String c ""
            | r' => String c r'
            end).
    by rewrite IH.
Qed.

(** A string is trimmed on the left when it is empty or starts with a
    character that is not white space. *)
Lemma lstrip_head (s : string) :
  PyStr.lstrip s = "" ∨ starts_nonspace (PyStr.lstrip s) = true.
Proof.
  induction s as [|c s IH]; [by left|].
  cbn [PyStr.lstrip]. destruct (PyStr.is_space c) eqn:Hc; [exact IH|].
  right. simpl. by rewrite Hc.
Qed.

Lemma lstrip_fixed (s : string) :
  s = "" ∨ starts_nonspace s = true → PyStr.lstrip s = s.
Proof.
  intros [->|H]; [reflexivity|]. destruct s as [|c s]; [discriminate|].
  simpl in H. cbn [PyStr.lstrip]. by destruct (PyStr.is_space c).
Qed.

Lemma rstrip_head (s : string) :
  s = "" ∨ starts_nonspace s = true →
  PyStr.rstrip s = "" ∨ starts_nonspace (PyStr.rstrip s) = true.
Proof.
  intros [->|H]; [by left|]. destruct s as [|c s]; [discriminate|].
  simpl in H. apply negb_true_iff in H. cbn [PyStr.rstrip]. rewrite H.
  right. destruct (PyStr.rstrip s); simpl; by rewrite H.
Qed.

Lemma strip_idemp (s : string) : PyStr.strip (PyStr.strip s) = PyStr.strip s.
Proof.
  unfold PyStr.strip.
  rewrite (lstrip_fixed (PyStr.rstrip (PyStr.lstrip s)))
    by (apply rstrip_head, lstrip_head).
  apply rstrip_idemp.
Qed.

Lemma strip_empty : PyStr.strip "" = "".
Proof. reflexivity. Qed.

(** What a string contains, its lower-cased form contains lower-cased. *)
Lemma prefix_lower (p s : string) :
  String.prefix p s = true → String.prefix (PyStr.lower p) (PyStr.lower s) = true.
Proof.
  revert p. induction s as [|c s IH]; intros [|d p]; try done.
  cbn [PyStr.lower]. rewrite !prefix_cons.
  destruct (ascii_dec d c) as [->|]; [|done]. intros H.
  destruct (ascii_dec _ _); [by apply IH | done].
Qed.

Lemma contains_lower (p s : string) :
  PyStr.contains p s = true →
  PyStr.contains (PyStr.lower p) (PyStr.lower s) = true.
Proof.
  induction s as [|c s IH].
  - destruct p; [done|]. discriminate.
  - rewrite contains_cons. intros [H|H]%orb_true_iff.
    + change (PyStr.lower (String c s))
        with (String (PyStr.lower_char c) (PyStr.lower s)).
      rewrite contains_cons.
      change (String (PyStr.lower_char c) (PyStr.lower s))
        with (PyStr.lower (String c s)).
      by rewrite prefix_lower.
    + change (PyStr.lower (String c s))
        with (String (PyStr.lower_char c) (PyStr.lower s)).
      rewrite contains_cons, IH by done. apply orb_true_r.
Qed.

(** ** The analysis context *)

Lemma drop_append (n : nat) (s t : string) :
  (n ≤ String.length s)%nat → PyStr.drop n (s +:+ t) = PyStr.drop n s +:+ t.
Proof.
  revert s. induction n as [|n IH]; intros s Hn; [reflexivity|].
  destruct s as [|c s]; simpl in Hn; [lia|].
  rewrite append_cons. cbn [PyStr.drop]. apply IH. lia.
Qed.

Lemma update_context_length (analysis_context new_info : string) :
  (String.length (_update_context analysis_context new_info) ≤ 2000)%nat.
Proof.
  unfold _update_context. destruct (2000 <? _)%nat eqn:Hlen.
  - pose proof (last_chars_is_tail 1500
                  (analysis_context +:+ nl +:+ new_info)) as [_ ->]. lia.
  - by apply Nat.ltb_ge in Hlen.
Qed.

(** X1. Whatever the context was and whatever is added, the context is at
    most 2000 characters long after an update, and it is a final part of
    the old context followed by a line feed and the new information. *)
Theorem update_context_bounded (analysis_context new_info : string) :
  (String.length (_update_context analysis_context new_info) ≤ 2000)%nat
  ∧ ∃ dropped,
      analysis_context +:+ nl +:+ new_info
      = dropped +:+ _update_context analysis_context new_info.
Proof.
  split; [apply update_context_length|]. unfold _update_context.
  destruct (2000 <? _)%nat.
  - by destruct (last_chars_is_tail 1500
                   (analysis_context +:+ nl +:+ new_info)) as [? _].
  - by exists "".
Qed.

(** X2. New information of at most 1500 characters is never cut: the
    updated context ends with it. *)
Theorem update_context_keeps_new_info (analysis_context new_info : string) :
  (String.length new_info ≤ 1500)%nat →
  ∃ before, _update_context analysis_context new_info = before +:+ new_info.
Proof.
  intros Hlen. unfold _update_context.
  destruct (2000 <? _)%nat.
  - unfold PyStr.last_chars. rewrite <- append_assoc, drop_append.
    + eauto.
    + rewrite !length_append. lia.
  - rewrite <- append_assoc. eauto.
Qed.

Lemma update_context_keeps_new_info_witness :
  (String.length "Step 2: 12 rows" ≤ 1500)%nat
  ∧ ∃ before,
      _update_context "Step 1: loaded" "Step 2: 12 rows"
      = before +:+ "Step 2: 12 rows".
Proof.
  assert (H : (String.length "Step 2: 12 rows" ≤ 1500)%nat) by (simpl; lia).
  split; [exact H|].
  exact (update_context_keeps_new_info "Step 1: loaded" "Step 2: 12 rows" H).
Defined.

(** ** The topic tracker *)

Lemma track_fold (lowered : string) (mapping : list (string * list string))
    (covered : gset string) (x : string) :
  x ∈ foldl (fun covered (entry : string * list string) =>
               if existsb (fun keyword => PyStr.contains keyword lowered)
                    (snd entry)
               then covered ∪ {[ fst entry ]} else covered)
        covered mapping
  ↔ x ∈ covered
    ∨ ∃ keywords, (x, keywords) ∈ mapping
        ∧ existsb (fun keyword => PyStr.contains keyword lowered) keywords = true.
Proof.
  revert covered. induction mapping as [|[topic keywords] mapping IH];
    intros covered; simpl.
  - split; [by left|]. intros [H|(kw & H & _)]; [done|]. by apply elem_of_nil in H.
  - rewrite IH. destruct (existsb _ keywords) eqn:Hk.
    + rewrite elem_of_union, elem_of_singleton. split.
      * intros [[H| ->]|(kw & H & Hkw)]; [by left| |].
        -- right. exists keywords. split; [left|done].
        -- right. exists kw. split; [by right|done].
      * intros [H|(kw & H & Hkw)]; [by left; left|].
        apply elem_of_cons in H as [[= -> ->]|H]; [by left; right|].
        right. eauto.
    + split.
      * intros [H|(kw & H & Hkw)]; [by left|].
        right. exists kw. split; [by right|done].
      * intros [H|(kw & H & Hkw)]; [by left|].
        apply elem_of_cons in H as [[= -> ->]|H]; [congruence|].
        right. eauto.
Qed.

(** A topic is covered after tracking when it was covered before or one
    of its keywords occurs in the lower-cased explanation. *)
Lemma track_spec (explanation : string) (topics : gset string) (x : string) :
  x ∈ _track_analysis_topics explanation topics
  ↔ x ∈ topics
    ∨ ∃ keywords, (x, keywords) ∈ topic_mapping
        ∧ existsb (fun keyword =>
                     PyStr.contains keyword (PyStr.lower explanation))
            keywords = true.
Proof. apply track_fold. Qed.

Lemma track_bounds (explanation : string) (topics : gset string) :
  topics ⊆ _track_analysis_topics explanation topics
  ∧ _track_analysis_topics explanation topics
    ⊆ topics ∪ all_topics ∪ {[ "feature_analysis" ]}.
Proof.
  split; intros x; rewrite track_spec; [by left|].
  intros [H|(kw & H & _)]; [set_solver|].
  unfold topic_mapping in H.
  repeat (apply elem_of_cons in H as [[= -> _]|H];
          [unfold all_topics; set_solver|]).
  by apply elem_of_nil in H.
Qed.

(** X3. Tracking only adds topics, and only labels of the fixed
    vocabulary: the seven labels of [all_topics] and feature_analysis. *)
Theorem track_grows_within_vocabulary (explanation : string) (topics : gset string) :
  topics ⊆ _track_analysis_topics explanation topics
  ∧ _track_analysis_topics explanation topics
    ⊆ topics ∪ all_topics ∪ {[ "feature_analysis" ]}.
Proof. apply track_bounds. Qed.

(** X4. Tracking the same explanation twice changes nothing more, and the
    order in which two explanations are tracked does not matter. *)
Theorem track_idempotent_commutative (e1 e2 : string) (topics : gset string) :
  _track_analysis_topics e1 (_track_analysis_topics e1 topics)
  = _track_analysis_topics e1 topics
  ∧ _track_analysis_topics e1 (_track_analysis_topics e2 topics)
    = _track_analysis_topics e2 (_track_analysis_topics e1 topics).
Proof.
  split; apply set_eq; intros x; rewrite !track_spec; tauto.
Qed.

(** X5. Tracking does not depend on the capitalisation of the
    explanation. *)
Theorem track_ignores_case (explanation : string) (topics : gset string) :
  _track_analysis_topics (PyStr.lower explanation) topics
  = _track_analysis_topics explanation topics.
Proof. unfold _track_analysis_topics. by rewrite lower_idemp. Qed.

(** ** The repetition detector, continued *)

Lemma last_three_split {A} (h : list A) :
  (4 ≤ length h)%nat → ∃ pre a b c, pre ≠ [] ∧ h = pre ++ [a; b; c].
Proof.
  intros Hlen. exists (take (length h - 3) h).
  pose proof (list.take_drop (length h - 3) h) as Hsplit.
  pose proof (list.length_drop h (length h - 3)) as Hdrop.
  destruct (drop (length h - 3) h) as [|a [|b [|c [|d l]]]] eqn:Hd;
    simpl in Hdrop; try lia.
  exists a, b, c. split; [|by rewrite Hsplit].
  intros Hnil. apply (f_equal length) in Hnil.
  rewrite list.length_take in Hnil. simpl in Hnil. lia.
Qed.

(** X6. The detector answers true exactly when the history has at least
    four entries and the first of the last three is similar to each of the
    two after it; nothing before the last three entries matters. *)
Theorem detect_repetitive_iff (h : list SessionEntry) :
  _detect_repetitive_analysis h = true
  ↔ ∃ pre a b c,
      pre ≠ [] ∧ h = pre ++ [a; b; c]
      ∧ similar (code a) (code b) = true ∧ similar (code a) (code c) = true.
Proof.
  split.
  - intros Hdet. destruct (decide (length h < 4)%nat) as [Hlt|Hge].
    + by rewrite detect_short in Hdet.
    + destruct (last_three_split h) as (pre & a & b & c & Hpre & ->); [lia|].
      rewrite detect_last_three in Hdet by done.
      apply andb_true_iff in Hdet as [??]. by exists pre, a, b, c.
  - intros (pre & a & b & c & Hpre & -> & Hab & Hac).
    rewrite detect_last_three by done. by rewrite Hab, Hac.
Qed.

Lemma size_word_set (s : string) :
  (size (word_set s) ≤ length (PyStr.split_ws s))%nat.
Proof.
  unfold word_set. induction (PyStr.split_ws s) as [|w l IH].
  - rewrite list_to_set_nil, size_empty. done.
  - rewrite list_to_set_cons. cbn [length].
    etrans; [apply Nat.eq_le_incl, size_union_alt|]. rewrite size_singleton.
    etrans; [apply Nat.add_le_mono_l, subseteq_size|].
    + apply subseteq_difference_l. reflexivity.
    + lia.
Qed.

(** X7. Similarity is symmetric and blind to capitalisation, and a snippet
    of at most ten words is similar to nothing. *)
Theorem similar_symmetric_and_needs_words (a b : string) :
  similar a b = similar b a
  ∧ similar (PyStr.lower a) b = similar a b
  ∧ ((length (PyStr.split_ws (PyStr.lower a)) ≤ 10)%nat → similar a b = false).
Proof.
  unfold similar. split; [|split].
  - by rewrite (comm_L (∩)).
  - by rewrite lower_idemp.
  - intros Hlen. apply Nat.ltb_ge.
    etrans; [apply subseteq_size, intersection_subseteq_l|].
    etrans; [apply size_word_set|]. exact Hlen.
Qed.

Lemma similar_symmetric_and_needs_words_witness :
  (length (PyStr.split_ws (PyStr.lower "df.corr() plot")) ≤ 10)%nat
  ∧ similar "df.corr() plot" corr_plot_code = false.
Proof.
  assert (H : (length (PyStr.split_ws (PyStr.lower "df.corr() plot")) ≤ 10)%nat)
    by (vm_compute; lia).
  split; [exact H|].
  exact (proj2 (proj2 (similar_symmetric_and_needs_words "df.corr() plot"
                         corr_plot_code)) H).
Defined.

(** ** The error classifier and the health probe *)

(** X8. The classification of an error depends on its text only, read
    without regard to capitalisation: neither the iteration nor the truth
    value of the error object plays a part. *)
Theorem handle_execution_error_ignores_case
    (text : string) (t1 t2 : bool) (i1 i2 : Z) :
  _handle_execution_error (PyObj t1 (PyStr.lower text)) i1
  = _handle_execution_error (PyObj t2 text) i2.
Proof. unfold _handle_execution_error. cbn [str]. by rewrite lower_idemp. Qed.

(** X9. The two classifiers agree in one direction: an exception text on
    which the health probe reports an unhealthy sandbox is a recoverable
    error for [_handle_execution_error]. *)
Theorem unhealthy_text_is_recoverable (msg : string) (iteration : Z) :
  _check_sandbox_health true (ProbeRaised msg) = false →
  _handle_execution_error (py_str msg) iteration = true.
Proof.
  unfold _check_sandbox_health, _handle_execution_error. cbn [negb str py_str].
  destruct (PyStr.contains "sandbox was not found" msg) eqn:Hfound.
  - intros _. apply contains_lower in Hfound.
    change (PyStr.lower "sandbox was not found")
      with "sandbox was not found" in Hfound.
    by rewrite Hfound.
  - destruct (PyStr.contains "timeout" (PyStr.lower msg)) eqn:Htimeout;
      [|discriminate].
    intros _. by rewrite orb_true_r.
Qed.

Lemma unhealthy_text_is_recoverable_witness :
  _check_sandbox_health true (ProbeRaised "Request TimeOut after 60s") = false
  ∧ _handle_execution_error (py_str "Request TimeOut after 60s") 4 = true.
Proof.
  assert (H : _check_sandbox_health true
                (ProbeRaised "Request TimeOut after 60s") = false)
    by (vm_compute; reflexivity).
  split; [exact H|].
  exact (unhealthy_text_is_recoverable "Request TimeOut after 60s" 4 H).
Defined.

(** ** The completion check, continued *)

Lemma completion_decision (history : list SessionEntry) (ai_response : string)
    (iteration min_iterations : Z) (topics : gset string) :
  should_stop (_check_analysis_completion history ai_response iteration
                 min_iterations topics)
  = has_completion_signal ai_response
    || negb (iteration <? min_iterations)
       && ((4 <=? Z.of_nat (size (core_topics ∩ topics))) && (5 <=? iteration)
           || (8 <? iteration) && _detect_repetitive_analysis history).
Proof.
  destruct (has_completion_signal ai_response) eqn:Hsig.
  - by rewrite signal_stops.
  - unfold _check_analysis_completion, matched_signal.
    rewrite (find_none_existsb _ _ Hsig).
    destruct (iteration <? min_iterations); [reflexivity|].
    destruct (_ && (5 <=? iteration)); [reflexivity|].
    by destruct (_ && _detect_repetitive_analysis history).
Qed.

(** X10. Without a completion phrase the check never stops an analysis
    before iteration 5, whatever the minimum, the topics covered and the
    history. *)
Theorem no_stop_before_iteration_five
    (history : list SessionEntry) (ai_response : string)
    (iteration min_iterations : Z) (topics : gset string) :
  has_completion_signal ai_response = false →
  iteration < 5 →
  should_stop (_check_analysis_completion history ai_response iteration
                 min_iterations topics) = false.
Proof.
  intros Hsig Hlt. rewrite completion_decision, Hsig.
  assert ((5 <=? iteration) = false) as -> by (apply Z.leb_gt; lia).
  assert ((8 <? iteration) = false) as -> by (apply Z.ltb_ge; lia).
  by rewrite andb_false_r, andb_false_r.
Qed.

Lemma no_stop_before_iteration_five_witness :
  has_completion_signal "EXPLANATION: plot the outliers" = false
  ∧ 4 < 5
  ∧ should_stop (_check_analysis_completion [] "EXPLANATION: plot the outliers"
                   4 1 core_topics) = false.
Proof.
  assert (H : has_completion_signal "EXPLANATION: plot the outliers" = false)
    by (vm_compute; reflexivity).
  split; [exact H|]. split; [lia|].
  exact (no_stop_before_iteration_five [] "EXPLANATION: plot the outliers"
           4 1 core_topics H ltac:(lia)).
Defined.

(** X11. Covering more topics never turns a stop into a continue. *)
Theorem completion_monotone_in_topics
    (history : list SessionEntry) (ai_response : string)
    (iteration min_iterations : Z) (topics topics' : gset string) :
  topics ⊆ topics' →
  should_stop (_check_analysis_completion history ai_response iteration
                 min_iterations topics) = true →
  should_stop (_check_analysis_completion history ai_response iteration
                 min_iterations topics') = true.
Proof.
  intros Hsub. rewrite !completion_decision.
  assert (Hsize : (size (core_topics ∩ topics) ≤ size (core_topics ∩ topics'))%nat)
    by (apply subseteq_size, intersection_mono_l, Hsub).
  destruct (4 <=? Z.of_nat (size (core_topics ∩ topics))) eqn:Hfour; [|
    destruct (4 <=? Z.of_nat (size (core_topics ∩ topics')));
    [destruct (has_completion_signal _), (iteration <? _), (5 <=? _),
       (8 <? _), (_detect_repetitive_analysis _); done | done]].
  apply Z.leb_le in Hfour.
  assert ((4 <=? Z.of_nat (size (core_topics ∩ topics'))) = true) as ->
    by (apply Z.leb_le; lia).
  done.
Qed.

Lemma completion_monotone_in_topics_witness :
  ({[ "correlations"; "patterns"; "distributions"; "visualization" ]} : gset string)
    ⊆ core_topics
  ∧ should_stop (_check_analysis_completion [] "Next step" 6 3 core_topics) = true.
Proof.
  assert (Hsub : ({[ "correlations"; "patterns"; "distributions";
                     "visualization" ]} : gset string) ⊆ core_topics)
    by (intros x; unfold core_topics;
        rewrite !elem_of_union, !elem_of_singleton; tauto).
  split; [exact Hsub|].
  apply (completion_monotone_in_topics [] "Next step" 6 3 _ _ Hsub).
  vm_compute. reflexivity.
Defined.

(** X12. When the response holds a completion phrase, the check stops and
    its reason names a phrase of the list that does occur in the
    lower-cased response. *)
Theorem completion_reason_names_signal
    (history : list SessionEntry) (ai_response : string)
    (iteration min_iterations : Z) (topics : gset string) :
  has_completion_signal ai_response = true →
  ∃ signal,
    signal ∈ completion_signals
    ∧ PyStr.contains signal (PyStr.lower ai_response) = true
    ∧ _check_analysis_completion history ai_response iteration min_iterations
        topics
      = {| should_stop := true;
           reason := "AI indicated completion with signal: '" +:+ signal +:+ "'" |}.
Proof.
  intros Hsig. destruct (find_some_existsb _ _ Hsig) as [signal Hfind].
  exists signal. apply find_some in Hfind as Hin. destruct Hin as [Hin Hc].
  split; [by apply list_elem_of_In|]. split; [exact Hc|].
  unfold _check_analysis_completion, matched_signal. by rewrite Hfind.
Qed.

Lemma completion_reason_names_signal_witness :
  has_completion_signal "A THOROUGH ANALYSIS of prices" = true
  ∧ ∃ signal,
      signal ∈ completion_signals
      ∧ PyStr.contains signal (PyStr.lower "A THOROUGH ANALYSIS of prices") = true
      ∧ _check_analysis_completion [] "A THOROUGH ANALYSIS of prices" 1 3 ∅
        = {| should_stop := true;
             reason := "AI indicated completion with signal: '" +:+ signal +:+ "'" |}.
Proof.
  assert (H : has_completion_signal "A THOROUGH ANALYSIS of prices" = true)
    by (vm_compute; reflexivity).
  split; [exact H|].
  exact (completion_reason_names_signal [] "A THOROUGH ANALYSIS of prices" 1 3 ∅ H).
Defined.

(** X13. Past the minimum and past iteration 8, a repetitive history stops
    the analysis even without a phrase and without any topic covered. *)
Theorem completion_on_repetition
    (history : list SessionEntry) (ai_response : string)
    (iteration min_iterations : Z) (topics : gset string) :
  min_iterations ≤ iteration →
  8 < iteration →
  _detect_repetitive_analysis history = true →
  should_stop (_check_analysis_completion history ai_response iteration
                 min_iterations topics) = true.
Proof.
  intros Hmin Hit Hrep. rewrite completion_decision, Hrep.
  assert ((iteration <? min_iterations) = false) as -> by (apply Z.ltb_ge; lia).
  assert ((8 <? iteration) = true) as -> by (apply Z.ltb_lt; lia).
  cbn. by rewrite !orb_true_r.
Qed.

Lemma completion_on_repetition_witness :
  3 ≤ 9 ∧ 8 < 9
  ∧ _detect_repetitive_analysis
      [entry_of_code describe_code; entry_of_code corr_code;
       entry_of_code corr_plot_code; entry_of_code corr_plot_code] = true
  ∧ should_stop (_check_analysis_completion
                   [entry_of_code describe_code; entry_of_code corr_code;
                    entry_of_code corr_plot_code; entry_of_code corr_plot_code]
                   "Next step" 9 3 ∅) = true.
Proof.
  assert (H : _detect_repetitive_analysis
                [entry_of_code describe_code; entry_of_code corr_code;
                 entry_of_code corr_plot_code; entry_of_code corr_plot_code]
              = true) by (vm_compute; reflexivity).
  split; [lia|]. split; [lia|]. split; [exact H|].
  exact (completion_on_repetition _ "Next step" 9 3 ∅ ltac:(lia) ltac:(lia) H).
Defined.

(** ** The response parser, continued *)

Lemma parse_line_explanation_stripped (st : LineState) (line : string) :
  PyStr.strip (ls_explanation st) = ls_explanation st →
  PyStr.strip (ls_explanation (parse_line st line))
  = ls_explanation (parse_line st line).
Proof.
  intros Hst. unfold parse_line.
  repeat match goal with
         | |- context [if ?b then _ else _] => destruct b
         end; cbn [ls_explanation]; try exact Hst.
  apply strip_idemp.
Qed.

Lemma parse_lines_explanation_stripped (lines : list string) (st : LineState) :
  PyStr.strip (ls_explanation st) = ls_explanation st →
  PyStr.strip (ls_explanation (foldl parse_line st lines))
  = ls_explanation (foldl parse_line st lines).
Proof.
  revert st. induction lines as [|l lines IH]; intros st Hst; [exact Hst|].
  rewrite foldl_cons. by apply IH, parse_line_explanation_stripped.
Qed.

(** X14. Whatever the response, the explanation and the code that the
    parser returns carry no white space at either end. *)
Theorem parse_returns_stripped (response : string) :
  PyStr.strip (fst (_parse_ai_response response))
  = fst (_parse_ai_response response)
  ∧ PyStr.strip (snd (_parse_ai_response response))
    = snd (_parse_ai_response response).
Proof.
  unfold _parse_ai_response.
  destruct (PyStr.contains "EXPLANATION:" response).
  - cbn [fst snd]. split; [|apply strip_idemp].
    by apply parse_lines_explanation_stripped.
  - destruct (PyStr.contains "```python" response).
    + cbn [fst snd]. split.
      * destruct (0 <? _); [apply strip_idemp | reflexivity].
      * destruct (negb _); [apply strip_idemp | reflexivity].
    + destruct (existsb _ code_keywords); cbn [fst snd];
        split; try reflexivity; apply strip_idemp.
Qed.

(** Every line of a text is a part of the text. *)
Lemma prefix_append_r (p s t : string) :
  String.prefix p s = true → String.prefix p (s +:+ t) = true.
Proof.
  revert p. induction s as [|c s IH]; intros [|d p] H; try done.
  - by destruct t.
  - rewrite append_cons, prefix_cons in *.
    destruct (ascii_dec d c); [by apply IH | done].
Qed.

Lemma split_char_head (sep : ascii) (s : string) :
  ∃ h t rest, PyStr.split_char sep s = h :: t ∧ s = h +:+ rest.
Proof.
  induction s as [|c s (h & t & rest & Hsplit & Hs)].
  - by exists "", [], "".
  - cbn [PyStr.split_char]. destruct (Ascii.eqb c sep).
    + by exists "", (PyStr.split_char sep s), (String c s).
    + rewrite Hsplit. exists (String c h), t, rest.
      by rewrite append_cons, <- Hs.
Qed.

Lemma split_char_contains (sep : ascii) (p s line : string) :
  line ∈ PyStr.split_char sep s →
  PyStr.contains p line = true → PyStr.contains p s = true.
Proof.
  revert line. induction s as [|c s IH]; intros line Hin Hp.
  - cbn [PyStr.split_char] in Hin. by apply list_elem_of_singleton in Hin as ->.
  - cbn [PyStr.split_char] in Hin. rewrite contains_cons.
    destruct (Ascii.eqb c sep).
    + apply elem_of_cons in Hin as [->|Hin].
      * destruct p as [|d p]; [reflexivity | discriminate].
      * by rewrite (IH line), orb_true_r.
    + destruct (split_char_head sep s) as (h & t & rest & Hsplit & Hs).
      rewrite Hsplit in Hin, IH.
      apply elem_of_cons in Hin as [->|Hin].
      * rewrite contains_cons in Hp. apply orb_true_iff in Hp as [Hp|Hp].
        -- rewrite Hs, <- append_cons. by rewrite prefix_append_r.
        -- rewrite (IH h); [apply orb_true_r | left | done].
      * rewrite (IH line); [apply orb_true_r | by right | done].
Qed.

Lemma contains_prefix (p s : string) :
  String.prefix p s = true → PyStr.contains p s = true.
Proof. intros H. destruct s; cbn [PyStr.contains]; by rewrite H. Qed.

Lemma parse_line_without_fence (st : LineState) (line : string) :
  PyStr.contains "```python" line = false →
  ls_code st = "" → ls_in_code_block st = false →
  ls_code (parse_line st line) = ""
  ∧ ls_in_code_block (parse_line st line) = false.
Proof.
  intros Hline Hcode Hblock. unfold parse_line, PyStr.startswith.
  assert (String.prefix "```python" (PyStr.strip line) = false) as ->.
  { destruct (String.prefix _ _) eqn:Hp; [|done].
    apply contains_prefix in Hp. rewrite contains_strip in Hp by done.
    congruence. }
  rewrite Hblock, andb_false_r.
  by destruct (String.prefix "EXPLANATION:" line), (String.prefix "CODE:" line).
Qed.

Lemma parse_lines_without_fence (lines : list string) (st : LineState) :
  (∀ line, line ∈ lines → PyStr.contains "```python" line = false) →
  ls_code st = "" → ls_in_code_block st = false →
  ls_code (foldl parse_line st lines) = "".
Proof.
  revert st. induction lines as [|l lines IH]; intros st Hl Hcode Hblock;
    [exact Hcode|].
  rewrite foldl_cons.
  destruct (parse_line_without_fence st l) as [Hc Hb]; try done.
  { apply Hl. by left. }
  apply IH; [|done..]. intros line Hin. apply Hl. by right.
Qed.

(** X15. A response without a python fence yields no code, unless it has
    no explanation marker and holds one of the code keywords (it is then
    taken as code as a whole). *)
Theorem parse_without_fence_has_no_code (response : string) :
  PyStr.contains "```python" response = false →
  PyStr.contains "EXPLANATION:" response = true
  ∨ existsb (fun keyword => PyStr.contains keyword response) code_keywords
    = false →
  snd (_parse_ai_response response) = "".
Proof.
  intros Hfence Hcase. unfold _parse_ai_response. rewrite Hfence.
  destruct (PyStr.contains "EXPLANATION:" response).
  - cbn [snd]. rewrite parse_lines_without_fence; [reflexivity| |done..].
    intros line Hin. destruct (PyStr.contains _ line) eqn:Hline; [|done].
    apply (split_char_contains _ _ _ _ Hin) in Hline.
    rewrite contains_strip in Hline by done. congruence.
  - destruct Hcase as [Hmarker| ->]; [discriminate Hmarker | reflexivity].
Qed.

Lemma parse_without_fence_has_no_code_witness :
  PyStr.contains "```python" "EXPLANATION: import the data, then print(df)"
  = false
  ∧ snd (_parse_ai_response "EXPLANATION: import the data, then print(df)") = "".
Proof.
  assert (H : PyStr.contains "```python"
                "EXPLANATION: import the data, then print(df)" = false)
    by (vm_compute; reflexivity).
  split; [exact H|].
  apply (parse_without_fence_has_no_code _ H). left. vm_compute. reflexivity.
Defined.

(** *** The unlabeled format *)

Lemma find_go_skip (p before rest : string) (n : nat) :
  no_backtick before = true →
  PyStr.find_go (String "`" p) (before +:+ rest) n
  = PyStr.find_go (String "`" p) rest (n + String.length before).
Proof.
  revert n. induction before as [|c before IH]; intros n Hb.
  - simpl. by rewrite Nat.add_0_r.
  - cbn [no_backtick] in Hb. apply andb_true_iff in Hb as [Hc Hb].
    rewrite append_cons. cbn [PyStr.find_go]. rewrite prefix_cons.
    destruct (ascii_dec "`" c) as [<-|_]; [discriminate Hc|].
    rewrite IH by done. cbn [String.length]. f_equal. lia.
Qed.

Lemma find_go_here (p rest : string) (n : nat) :
  PyStr.find_go p (p +:+ rest) n = Z.of_nat n.
Proof.
  destruct (p +:+ rest) eqn:E; cbn [PyStr.find_go];
    by rewrite <- E, prefix_append.
Qed.

Lemma find_go_absent (p s : string) (n : nat) :
  no_backtick s = true → PyStr.find_go (String "`" p) s n = -1.
Proof.
  revert n. induction s as [|c s IH]; intros n Hs; [reflexivity|].
  cbn [no_backtick] in Hs. apply andb_true_iff in Hs as [Hc Hs].
  cbn [PyStr.find_go]. rewrite prefix_cons.
  destruct (ascii_dec "`" c) as [<-|_]; [discriminate Hc|]. by apply IH.
Qed.

Lemma take_append_length (a s : string) : PyStr.take (String.length a) (a +:+ s) = a.
Proof.
  induction a as [|c a IH]; [reflexivity|].
  rewrite append_cons. cbn [String.length PyStr.take]. by rewrite IH.
Qed.

Lemma drop_append_add (a s : string) (n : nat) :
  PyStr.drop (String.length a + n) (a +:+ s) = PyStr.drop n s.
Proof. induction a as [|c a IH]; [reflexivity|]. rewrite append_cons. exact IH. Qed.

Lemma contains_append_l (p a b : string) :
  PyStr.contains p a = true → PyStr.contains p (a +:+ b) = true.
Proof.
  induction a as [|c a IH]; intros H.
  - destruct p; [|discriminate]. by destruct b.
  - rewrite append_cons, contains_cons. rewrite contains_cons in H.
    apply orb_true_iff in H as [H|H].
    + rewrite <- append_cons. by rewrite prefix_append_r.
    + by rewrite IH, orb_true_r.
Qed.

Lemma unlabeled_explanation (before rest : string) :
  PyStr.contains "EXPLANATION:" (before +:+ rest) = false →
  PyStr.strip (PyStr.remove_all "EXPLANATION:" (PyStr.strip before))
  = PyStr.strip before.
Proof.
  intros Hmarker. rewrite remove_all_absent; [apply strip_idemp|].
  rewrite contains_strip by done.
  destruct (PyStr.contains "EXPLANATION:" before) eqn:Hb; [|done].
  by rewrite contains_append_l in Hmarker.
Qed.

Lemma unlabeled_code_start (before rest : string) :
  no_backtick before = true →
  PyStr.find "```python" (before +:+ "```python" +:+ rest) 0
  = Z.of_nat (String.length before).
Proof.
  intros Hb. unfold PyStr.find.
  change (PyStr.drop 0 ?s) with s. cbn [Nat.ltb Nat.leb].
  by rewrite find_go_skip, find_go_here.
Qed.

(** X16. In a response without explanation marker, made of some text, one
    closed python fence and more text, where neither the text before nor
    the body holds a backtick, the explanation is the text before the
    fence and the code is the body, both stripped; what follows the
    closing fence is ignored. *)
Theorem parse_unlabeled_fence (before body after : string) :
  no_backtick before = true →
  no_backtick body = true →
  PyStr.contains "EXPLANATION:" (unlabeled_response before body after) = false →
  _parse_ai_response (unlabeled_response before body after)
  = (PyStr.strip before, PyStr.strip body).
Proof.
  intros Hb Hbody Hmarker. unfold _parse_ai_response. rewrite Hmarker.
  unfold unlabeled_response in *.
  assert (PyStr.contains "```python"
            (before +:+ "```python" +:+ body +:+ "```" +:+ after) = true) as ->
    by apply contains_skip, contains_here.
  rewrite unlabeled_code_start by done.
  rewrite Nat2Z.id, take_append_length.
  replace (Z.to_nat (Z.of_nat (String.length before) + 9))
    with (String.length before + 9)%nat by lia.
  assert (Hfind : PyStr.find "```"
                    (before +:+ "```python" +:+ body +:+ "```" +:+ after)
                    (String.length before + 9)
                  = Z.of_nat (String.length before + 9 + String.length body)).
  { unfold PyStr.find.
    assert ((String.length (before +:+ "```python" +:+ body +:+ "```" +:+ after)
             <? String.length before + 9)%nat = false) as ->.
    { apply Nat.ltb_ge. rewrite !length_append. simpl. lia. }
    rewrite drop_append_add.
    change (PyStr.drop 9 ("```python" +:+ ?x)) with x.
    by rewrite find_go_skip, find_go_here. }
  rewrite Hfind.
  assert ((Z.of_nat (String.length before + 9 + String.length body) =? -1)
          = false) as -> by (apply Z.eqb_neq; lia).
  cbn [negb]. unfold PyStr.slice.
  rewrite Nat2Z.id, drop_append_add.
  change (PyStr.drop 9 ("```python" +:+ ?x)) with x.
  replace (String.length before + 9 + String.length body
           - (String.length before + 9))%nat
    with (String.length body) by lia.
  rewrite take_append_length. f_equal.
  destruct before as [|c before]; [reflexivity|].
  assert ((0 <? Z.of_nat (String.length (String c before))) = true) as ->
    by (apply Z.ltb_lt; simpl; lia).
  by eapply unlabeled_explanation.
Qed.

Lemma parse_unlabeled_fence_witness :
  no_backtick ("Here is the plot:" +:+ nl) = true
  ∧ no_backtick (nl +:+ "df.plot()" +:+ nl) = true
  ∧ _parse_ai_response
      (unlabeled_response ("Here is the plot:" +:+ nl)
         (nl +:+ "df.plot()" +:+ nl) (nl +:+ "It saves a file."))
    = ("Here is the plot:", "df.plot()").
Proof.
  assert (H1 : no_backtick ("Here is the plot:" +:+ nl) = true) by reflexivity.
  assert (H2 : no_backtick (nl +:+ "df.plot()" +:+ nl) = true) by reflexivity.
  split; [exact H1|]. split; [exact H2|].
  refine (eq_trans (parse_unlabeled_fence ("Here is the plot:" +:+ nl)
                      (nl +:+ "df.plot()" +:+ nl) (nl +:+ "It saves a file.")
                      H1 H2 _) _); vm_compute; reflexivity.
Defined.

(** X17. When the python fence is never closed, the body is not taken as
    code: the parser returns the text before the fence and no code. *)
Theorem parse_unclosed_fence (before body : string) :
  no_backtick before = true →
  no_backtick body = true →
  PyStr.contains "EXPLANATION:" (before +:+ "```python" +:+ body) = false →
  _parse_ai_response (before +:+ "```python" +:+ body)
  = (PyStr.strip before, "").
Proof.
  intros Hb Hbody Hmarker. unfold _parse_ai_response. rewrite Hmarker.
  assert (PyStr.contains "```python" (before +:+ "```python" +:+ body) = true)
    as -> by apply contains_skip, contains_here.
  rewrite unlabeled_code_start by done.
  rewrite Nat2Z.id, take_append_length.
  replace (Z.to_nat (Z.of_nat (String.length before) + 9))
    with (String.length before + 9)%nat by lia.
  assert (PyStr.find "```" (before +:+ "```python" +:+ body)
            (String.length before + 9) = -1) as ->.
  { unfold PyStr.find.
    assert ((String.length (before +:+ "```python" +:+ body)
             <? String.length before + 9)%nat = false) as ->.
    { apply Nat.ltb_ge. rewrite !length_append. simpl. lia. }
    rewrite drop_append_add.
    change (PyStr.drop 9 ("```python" +:+ ?x)) with x.
    by apply find_go_absent. }
  cbn [Z.eqb negb Pos.eqb]. f_equal.
  destruct before as [|c before]; [reflexivity|].
  assert ((0 <? Z.of_nat (String.length (String c before))) = true) as ->
    by (apply Z.ltb_lt; simpl; lia).
  by eapply unlabeled_explanation.
Qed.

Lemma parse_unclosed_fence_witness :
  no_backtick "Plot: " = true
  ∧ no_backtick (nl +:+ "df.plot()") = true
  ∧ _parse_ai_response ("Plot: " +:+ "```python" +:+ nl +:+ "df.plot()")
    = ("Plot:", "").
Proof.
  assert (H1 : no_backtick "Plot: " = true) by reflexivity.
  assert (H2 : no_backtick (nl +:+ "df.plot()") = true) by reflexivity.
  split; [exact H1|]. split; [exact H2|].
  refine (eq_trans (parse_unclosed_fence "Plot: " (nl +:+ "df.plot()") H1 H2 _) _);
    vm_compute; reflexivity.
Defined.

(** ** chat_with_ai *)

(** X18. A reply is returned only when the request did not raise; it is
    stripped, and it is either the bare token ANALYSIS_COMPLETE or a text
    that does not contain the token. *)
Theorem chat_reply_shape (raw : option string) (reply : string) :
  chat_with_ai raw = Some reply →
  (∃ content, raw = Some content)
  ∧ PyStr.strip reply = reply
  ∧ (reply = "ANALYSIS_COMPLETE"
     ∨ PyStr.contains "ANALYSIS_COMPLETE" reply = false).
Proof.
  destruct raw as [content|]; [|discriminate]. cbn [chat_with_ai].
  destruct (PyStr.contains _ (PyStr.strip content)) eqn:Hc; intros [= <-].
  - split; [eauto|]. split; [reflexivity | by left].
  - split; [eauto|]. split; [apply strip_idemp | by right].
Qed.

Lemma chat_reply_shape_witness :
  chat_with_ai (Some "  All done: ANALYSIS_COMPLETE  ") = Some "ANALYSIS_COMPLETE"
  ∧ PyStr.strip "ANALYSIS_COMPLETE" = "ANALYSIS_COMPLETE".
Proof.
  assert (H : chat_with_ai (Some "  All done: ANALYSIS_COMPLETE  ")
              = Some "ANALYSIS_COMPLETE") by (vm_compute; reflexivity).
  split; [exact H|].
  exact (proj1 (proj2 (chat_reply_shape _ _ H))).
Defined.

(** ** Invariants of the loop *)

Ltac body_cases t :=
  unfold loop_body;
  destruct (negb _ && negb _);
  [| destruct (chat_with_ai (model_reply t)) as [[|? ?]|];
     [ destruct (3 <=? _)
     | destruct (should_stop _);
       [| destruct (_parse_ai_response _) as [explanation code'];
          destruct (String.eqb code' "");
          [| destruct (execute_code _ _ _) as [h [ok lg]] eqn:Hexec;
             destruct (negb _ && _) ] ]
     | destruct (3 <=? _) ] ];
  cbn [result_state iteration session_history analysis_topics_covered
       sandbox_reset_count analysis_context consecutive_failures has_sandbox
       current_prompt].

Lemma tracked_topics_bounds (explanation : string) (topics : gset string) :
  topics ⊆ (if negb (String.eqb explanation "")
            then _track_analysis_topics explanation topics else topics)
  ∧ (if negb (String.eqb explanation "")
     then _track_analysis_topics explanation topics else topics)
    ⊆ topics ∪ topic_vocabulary.
Proof.
  unfold topic_vocabulary. destruct (negb _).
  - destruct (track_bounds explanation topics) as [Hsub Hvoc].
    split; [exact Hsub|]. by rewrite (assoc_L (∪)).
  - split; [reflexivity | apply union_subseteq_l].
Qed.

(** What one turn does to the state, whether it ends with a [break] or
    not. *)
Lemma loop_body_step (set_order : gset string → list string)
    (min_iterations : Z) (t : Turn) (st : State) :
  let st' := result_state (loop_body set_order min_iterations t st) in
  iteration st' = iteration st + 1
  ∧ (∃ added, session_history st' = session_history st ++ added
              ∧ (length added ≤ 1)%nat
              ∧ Forall (fun e => success e = true) added)
  ∧ analysis_topics_covered st ⊆ analysis_topics_covered st'
  ∧ analysis_topics_covered st'
    ⊆ analysis_topics_covered st ∪ topic_vocabulary
  ∧ sandbox_reset_count st ≤ sandbox_reset_count st'
    ≤ sandbox_reset_count st + 1
  ∧ (String.length (analysis_context st')
     ≤ 2000 `max` String.length (analysis_context st))%nat.
Proof.
  assert (Hnone : ∃ added : list SessionEntry,
             session_history st = session_history st ++ added
             ∧ (length added ≤ 1)%nat
             ∧ Forall (fun e => success e = true) added).
  { exists []. rewrite app_nil_r. split; [done|]. split; [simpl; lia | constructor]. }
  assert (Hreset : sandbox_reset_count st
                   ≤ (if _check_sandbox_health (has_sandbox st) (probe t)
                      then sandbox_reset_count st
                      else sandbox_reset_count st + 1)
                   ≤ sandbox_reset_count st + 1)
    by (destruct (_check_sandbox_health _ _); lia).
  cbv zeta. body_cases t.
  all: try pose proof (tracked_topics_bounds explanation
                         (analysis_topics_covered st)) as [Hsub Hvoc].
  all: try (cbn [session_history] in Hexec;
            pose proof (execute_code_history (session_history st) code' (run t))
              as Hhist; rewrite Hexec in Hhist; cbv beta iota zeta in Hhist).
  all: split; [reflexivity|].
  all: split;
    [ first [ exact Hnone
            | destruct ok;
              [ destruct Hhist as (e & -> & _ & He); exists [e];
                split; [done|]; split; [simpl; lia | by repeat constructor]
              | subst h; exact Hnone ] ]
    | ].
  all: split; [first [exact Hsub | done]|].
  all: split; [first [exact Hvoc | apply union_subseteq_l]|].
  all: split; [first [exact Hreset | lia]|].
  all: first [ apply Nat.max_le_iff; left; apply update_context_length | lia ].
Qed.

Lemma while_loop_unfold (set_order : gset string → list string) (fuel : nat)
    (world : Z → Turn) (max_iterations min_iterations : Z) (st : State) :
  iteration st < max_iterations →
  while_loop set_order (S fuel) world max_iterations min_iterations st
  = match loop_body set_order min_iterations (world (iteration st + 1)) st with
    | inl st' => while_loop set_order fuel world max_iterations min_iterations st'
    | inr stopped => stopped
    end.
Proof. intros Hlt. simpl. by apply Z.ltb_lt in Hlt as ->. Qed.

Lemma while_loop_done (set_order : gset string → list string) (fuel : nat)
    (world : Z → Turn) (max_iterations min_iterations : Z) (st : State) :
  max_iterations ≤ iteration st →
  while_loop set_order fuel world max_iterations min_iterations st
  = (st, LimitReached).
Proof.
  intros Hge. assert ((iteration st <? max_iterations) = false) as Hlt
    by (apply Z.ltb_ge; lia).
  destruct fuel; simpl; by rewrite Hlt.
Qed.

Lemma loop_body_break_not_limit (set_order : gset string → list string)
    (min_iterations : Z) (t : Turn) (st st' : State) (e : Exit) :
  loop_body set_order min_iterations t st = inr (st', e) → e ≠ LimitReached.
Proof. body_cases t; intros [= _ <-]; done. Qed.

(** The iteration counter during the loop, given fuel enough to reach the
    limit. *)
Lemma while_loop_bounds (set_order : gset string → list string) (fuel : nat)
    (world : Z → Turn) (max_iterations min_iterations : Z) (st : State) :
  iteration st ≤ max_iterations →
  (Z.to_nat (max_iterations - iteration st) ≤ fuel)%nat →
  let r := while_loop set_order fuel world max_iterations min_iterations st in
  iteration st ≤ iteration (fst r) ≤ max_iterations
  ∧ (snd r = LimitReached → iteration (fst r) = max_iterations)
  ∧ (snd r ≠ LimitReached → iteration st < iteration (fst r)).
Proof.
  cbv zeta. revert st. induction fuel as [|fuel IH]; intros st Hle Hfuel.
  - rewrite while_loop_done by lia. simpl. repeat split; [lia..|done].
  - destruct (decide (iteration st < max_iterations)) as [Hlt|Hge];
      [|rewrite while_loop_done by lia; simpl; repeat split; [lia..|done]].
    rewrite while_loop_unfold by done.
    pose proof (loop_body_step set_order min_iterations
                  (world (iteration st + 1)) st) as [Hit _].
    destruct (loop_body _ _ _ _) as [st'|[st' e]] eqn:Hbody; simpl in Hit.
    + destruct (IH st') as (Hb & Hlim & Hnot); [lia..|].
      repeat split; [lia.. | exact Hlim | intros H; apply Hnot in H; lia].
    + simpl. apply loop_body_break_not_limit in Hbody.
      repeat split; [lia.. | done | lia].
Qed.

(** X19. With a limit that is not negative, a run ends with [iteration]
    between 0 and the limit; it ends on the loop condition only at the
    limit itself, and every [break] happens in a turn that was counted. *)
Theorem run_iteration_bounds (set_order : gset string → list string)
    (world : Z → Turn) (self : State) (initial_prompt : string)
    (max_iterations min_iterations : Z) :
  0 ≤ max_iterations →
  let r := execute_with_automation set_order world self initial_prompt
             max_iterations min_iterations in
  0 ≤ iteration (fst r) ≤ max_iterations
  ∧ (snd r = LimitReached → iteration (fst r) = max_iterations)
  ∧ (snd r ≠ LimitReached → 1 ≤ iteration (fst r)).
Proof.
  intros Hmax. cbv zeta. unfold execute_with_automation.
  destruct (while_loop_bounds set_order (Z.to_nat max_iterations) world
              max_iterations min_iterations
              (initial_state (has_sandbox self) (session_history self)
                 (analysis_context self) initial_prompt))
    as (Hb & Hlim & Hnot); simpl; [lia..|].
  simpl in Hb, Hnot. repeat split; [lia.. | exact Hlim |].
  intros H. apply Hnot in H. lia.
Qed.

Lemma run_iteration_bounds_witness :
  0 ≤ 15
  ∧ iteration (fst (execute_with_automation elements failing_world
                      fresh_analyzer "Analyze the data" 15 3)) = 15.
Proof.
  split; [lia|].
  apply (run_iteration_bounds elements failing_world fresh_analyzer
           "Analyze the data" 15 3 ltac:(lia)).
  vm_compute. reflexivity.
Defined.

(** The history, the topics, the count of recoveries and the context
    during the loop. *)
Lemma while_loop_invariants (set_order : gset string → list string) (fuel : nat)
    (world : Z → Turn) (max_iterations min_iterations : Z) (st : State) :
  let st' := fst (while_loop set_order fuel world max_iterations
                    min_iterations st) in
  iteration st ≤ iteration st'
  ∧ (∃ added, session_history st' = session_history st ++ added
              ∧ Z.of_nat (length added) ≤ iteration st' - iteration st
              ∧ Forall (fun e => success e = true) added)
  ∧ analysis_topics_covered st ⊆ analysis_topics_covered st'
  ∧ analysis_topics_covered st'
    ⊆ analysis_topics_covered st ∪ topic_vocabulary
  ∧ sandbox_reset_count st ≤ sandbox_reset_count st'
    ≤ sandbox_reset_count st + (iteration st' - iteration st)
  ∧ (String.length (analysis_context st')
     ≤ 2000 `max` String.length (analysis_context st))%nat.
Proof.
  cbv zeta. revert st. induction fuel as [|fuel IH]; intros st.
  - assert (fst (while_loop set_order 0 world max_iterations min_iterations st)
            = st) as -> by (simpl; by destruct (_ <? _)).
    split; [lia|]. split.
    { exists []. rewrite app_nil_r. split; [done|]. split; [simpl; lia|constructor]. }
    split; [done|]. split; [apply union_subseteq_l|]. split; lia.
  - destruct (decide (iteration st < max_iterations)) as [Hlt|Hge].
    2: { rewrite while_loop_done by lia. simpl.
         split; [lia|]. split.
         { exists []. rewrite app_nil_r. split; [done|].
           split; [simpl; lia|constructor]. }
         split; [done|]. split; [apply union_subseteq_l|]. split; lia. }
    rewrite while_loop_unfold by done.
    pose proof (loop_body_step set_order min_iterations
                  (world (iteration st + 1)) st)
      as (Hit & (added & Hh & Hlen & Hok) & Hsub & Hvoc & Hres & Hctx).
    destruct (loop_body _ _ _ _) as [st1|[st1 e]]; simpl in *.
    + destruct (IH st1)
        as (Hit' & (added' & Hh' & Hlen' & Hok') & Hsub' & Hvoc' & Hres' & Hctx').
      split; [lia|]. split.
      { exists (added ++ added'). rewrite Hh', Hh, app_assoc.
        split; [done|]. split; [rewrite length_app; lia|].
        by apply Forall_app. }
      split; [by etrans|]. split.
      { etrans; [exact Hvoc'|]. apply union_least; [exact Hvoc|].
        apply union_subseteq_r. }
      split; lia.
    + split; [lia|]. split.
      { exists added. split; [done|]. split; [lia | done]. }
      split; [done|]. split; [done|]. split; lia.
Qed.

(** X20. A run never removes or alters an entry of the history: it only
    appends entries, all marked successful and no more than one for each
    counted iteration. The topics it reports are labels of the
    vocabulary, and the count of sandbox recoveries lies between 0 and the
    number of iterations. *)
Theorem run_keeps_history (set_order : gset string → list string)
    (world : Z → Turn) (self : State) (initial_prompt : string)
    (max_iterations min_iterations : Z) :
  let final := fst (execute_with_automation set_order world self initial_prompt
                      max_iterations min_iterations) in
  (∃ added, session_history final = session_history self ++ added
            ∧ Z.of_nat (length added) ≤ iteration final
            ∧ Forall (fun e => success e = true) added)
  ∧ analysis_topics_covered final ⊆ topic_vocabulary
  ∧ 0 ≤ sandbox_reset_count final ≤ iteration final.
Proof.
  cbv zeta. unfold execute_with_automation.
  destruct (while_loop_invariants set_order (Z.to_nat max_iterations) world
              max_iterations min_iterations
              (initial_state (has_sandbox self) (session_history self)
                 (analysis_context self) initial_prompt))
    as (Hit & (added & Hh & Hlen & Hok) & _ & Hvoc & Hres & _).
  simpl in *. split.
  - exists added. split; [done|]. split; [lia | done].
  - split; [|lia]. etrans; [exact Hvoc|].
    apply union_least; [apply empty_subseteq | reflexivity].
Qed.

(** X21. A run leaves the analysis context at most 2000 characters long,
    or no longer than it found it. *)
Theorem run_bounds_context (set_order : gset string → list string)
    (world : Z → Turn) (self : State) (initial_prompt : string)
    (max_iterations min_iterations : Z) :
  (String.length
     (analysis_context
        (fst (execute_with_automation set_order world self initial_prompt
                max_iterations min_iterations)))
   ≤ 2000 `max` String.length (analysis_context self))%nat.
Proof.
  unfold execute_with_automation.
  by destruct (while_loop_invariants set_order (Z.to_nat max_iterations) world
                 max_iterations min_iterations
                 (initial_state (has_sandbox self) (session_history self)
                    (analysis_context self) initial_prompt))
    as (_ & _ & _ & _ & _ & Hctx).
Qed.

(** *** Why a run stops *)

Lemma loop_body_exit_sound (set_order : gset string → list string)
    (min_iterations : Z) (t : Turn) (st st' : State) (e : Exit) :
  loop_body set_order min_iterations t st = inr (st', e) →
  match e with
  | SandboxLost =>
      _check_sandbox_health (has_sandbox st') (probe t) = false
      ∧ sandbox_created t = false
  | ModelFailures => no_reply t = true ∧ 3 ≤ consecutive_failures st'
  | AnalysisComplete why =>
      ∃ reply, chat_with_ai (model_reply t) = Some reply
        ∧ _check_analysis_completion (session_history st') reply
            (iteration st') min_iterations (analysis_topics_covered st')
          = {| should_stop := true; reason := why |}
  | ExecutionFailures | LimitReached => False
  end.
Proof.
  unfold no_reply, loop_body.
  destruct (negb _ && negb _) eqn:Hhealth.
  { intros [= <- <-]. cbn [has_sandbox].
    apply andb_true_iff in Hhealth as [H1 H2].
    by apply negb_true_iff in H1, H2. }
  destruct (chat_with_ai (model_reply t)) as [[|c r]|].
  - destruct (3 <=? _) eqn:Hcf; [|done]. intros [= <- <-].
    split; [done|]. cbn [consecutive_failures]. by apply Z.leb_le.
  - destruct (_check_analysis_completion _ _ _ _ _) as [stop why] eqn:Hcheck.
    cbn [should_stop reason]. destruct stop.
    { intros [= <- <-]. exists (String c r). split; [done|].
      cbn [session_history iteration analysis_topics_covered] in *.
      exact Hcheck. }
    destruct (_parse_ai_response _) as [explanation code'].
    destruct (String.eqb code' ""); [done|].
    destruct (execute_code _ _ _) as [h [ok lg]].
    destruct ok; [done|].
    by destruct (_handle_execution_error lg _).
  - destruct (3 <=? _) eqn:Hcf; [|done]. intros [= <- <-].
    split; [done|]. cbn [consecutive_failures]. by apply Z.leb_le.
Qed.

Lemma while_loop_exit_sound (set_order : gset string → list string) (fuel : nat)
    (world : Z → Turn) (max_iterations min_iterations : Z) (st : State) :
  (Z.to_nat (max_iterations - iteration st) ≤ fuel)%nat →
  let r := while_loop set_order fuel world max_iterations min_iterations st in
  let final := fst r in
  let t := world (iteration final) in
  match snd r with
  | SandboxLost =>
      _check_sandbox_health (has_sandbox final) (probe t) = false
      ∧ sandbox_created t = false
  | ModelFailures => no_reply t = true ∧ 3 ≤ consecutive_failures final
  | AnalysisComplete why =>
      ∃ reply, chat_with_ai (model_reply t) = Some reply
        ∧ _check_analysis_completion (session_history final) reply
            (iteration final) min_iterations (analysis_topics_covered final)
          = {| should_stop := true; reason := why |}
  | ExecutionFailures => False
  | LimitReached => max_iterations ≤ iteration final
  end.
Proof.
  cbv zeta. revert st. induction fuel as [|fuel IH]; intros st Hfuel.
  - rewrite while_loop_done by lia. simpl. lia.
  - destruct (decide (iteration st < max_iterations)) as [Hlt|Hge];
      [|rewrite while_loop_done by lia; simpl; lia].
    rewrite while_loop_unfold by done.
    pose proof (loop_body_step set_order min_iterations
                  (world (iteration st + 1)) st) as [Hit _].
    destruct (loop_body _ _ _ _) as [st'|[st' e]] eqn:Hbody; simpl in Hit.
    + apply IH. lia.
    + apply loop_body_exit_sound in Hbody. cbn [fst snd].
      rewrite <- Hit in Hbody. destruct e; first [exact Hbody | done].
Qed.

(** X22. The way a run ends tells what happened in its last turn: the
    sandbox was found unhealthy and could not be created anew; or the
    model gave no reply and the failure counter reached 3; or the
    completion check said stop on the reply, with the very reason
    reported; or the limit was reached. It never ends on execution
    failures. *)
Theorem run_exit_sound (set_order : gset string → list string)
    (world : Z → Turn) (self : State) (initial_prompt : string)
    (max_iterations min_iterations : Z) :
  let r := execute_with_automation set_order world self initial_prompt
             max_iterations min_iterations in
  let final := fst r in
  let t := world (iteration final) in
  match snd r with
  | SandboxLost =>
      _check_sandbox_health (has_sandbox final) (probe t) = false
      ∧ sandbox_created t = false
  | ModelFailures => no_reply t = true ∧ 3 ≤ consecutive_failures final
  | AnalysisComplete why =>
      ∃ reply, chat_with_ai (model_reply t) = Some reply
        ∧ _check_analysis_completion (session_history final) reply
            (iteration final) min_iterations (analysis_topics_covered final)
          = {| should_stop := true; reason := why |}
  | ExecutionFailures => False
  | LimitReached => max_iterations ≤ iteration final
  end.
Proof.
  cbv zeta. unfold execute_with_automation.
  apply while_loop_exit_sound. simpl. lia.
Qed.

(** *** Turns without a reply of the model *)

Lemma loop_body_no_reply (set_order : gset string → list string)
    (min_iterations : Z) (t : Turn) (st : State) :
  _check_sandbox_health (has_sandbox st) (probe t) = true →
  no_reply t = true →
  loop_body set_order min_iterations t st
  = if 3 <=? consecutive_failures st + 1
    then inr (after_no_reply st, ModelFailures)
    else inl (after_no_reply st).
Proof.
  intros Hhealth Hno. unfold loop_body, no_reply, after_no_reply in *.
  cbn [has_sandbox consecutive_failures session_history analysis_context
       current_prompt analysis_topics_covered sandbox_reset_count iteration].
  rewrite Hhealth. cbn [negb andb].
  by destruct (chat_with_ai (model_reply t)) as [[|c r]|].
Qed.

Lemma while_loop_no_reply (set_order : gset string → list string) (fuel : nat)
    (world : Z → Turn) (max_iterations min_iterations : Z) (st : State) :
  iteration st < max_iterations →
  has_sandbox st = true →
  probe (world (iteration st + 1)) = ProbeReturned None →
  no_reply (world (iteration st + 1)) = true →
  while_loop set_order (S fuel) world max_iterations min_iterations st
  = if 3 <=? consecutive_failures st + 1
    then (after_no_reply st, ModelFailures)
    else while_loop set_order fuel world max_iterations min_iterations
           (after_no_reply st).
Proof.
  intros Hlt Hsb Hprobe Hno.
  rewrite while_loop_unfold, loop_body_no_reply by
    (try done; by rewrite Hsb, Hprobe).
  by destruct (3 <=? _).
Qed.

(** X23. When the sandbox is healthy and the model gives no reply in the
    first three turns, the run stops at iteration 3 on model failures:
    nothing was executed, the history, the context and the prompt are as
    they were. *)
Theorem three_model_failures_stop (set_order : gset string → list string)
    (world : Z → Turn) (self : State) (initial_prompt : string)
    (max_iterations min_iterations : Z) :
  has_sandbox self = true →
  (∀ k, 1 ≤ k ≤ 3 →
        probe (world k) = ProbeReturned None ∧ no_reply (world k) = true) →
  3 ≤ max_iterations →
  execute_with_automation set_order world self initial_prompt max_iterations
    min_iterations
  = ({| has_sandbox := true;
        session_history := session_history self;
        analysis_context := analysis_context self;
        iteration := 3;
        current_prompt := initial_prompt;
        consecutive_failures := 3;
        analysis_topics_covered := ∅;
        sandbox_reset_count := 0 |}, ModelFailures).
Proof.
  intros Hsb Hworld Hmax. unfold execute_with_automation. rewrite Hsb.
  destruct (Z.to_nat max_iterations) as [|[|[|fuel]]] eqn:Hfuel; try lia.
  destruct (Hworld 1) as [Hp1 Hn1]; [lia|].
  destruct (Hworld 2) as [Hp2 Hn2]; [lia|].
  destruct (Hworld 3) as [Hp3 Hn3]; [lia|].
  rewrite while_loop_no_reply by (try done; simpl; lia).
  cbn [initial_state consecutive_failures Z.add Z.leb Z.compare Pos.compare
       Pos.compare_cont].
  rewrite while_loop_no_reply by (try done; simpl; lia).
  cbn [initial_state after_no_reply consecutive_failures Z.add Z.leb Z.compare
       Pos.compare Pos.compare_cont Pos.add Pos.succ].
  rewrite while_loop_no_reply by (try done; simpl; lia).
  reflexivity.
Qed.

Lemma three_model_failures_stop_witness :
  snd (execute_with_automation elements
         (fun _ => {| probe := ProbeReturned None;
                      sandbox_created := true;
                      model_reply := None;
                      run := RunRaised "" |})
         fresh_analyzer "Analyze the data" 15 3) = ModelFailures.
Proof.
  refine (f_equal snd
            (three_model_failures_stop elements
               (fun _ => {| probe := ProbeReturned None;
                            sandbox_created := true;
                            model_reply := None;
                            run := RunRaised "" |})
               fresh_analyzer "Analyze the data" 15 3 _ _ _)).
  - reflexivity.
  - intros k _. split; reflexivity.
  - lia.
Defined.

(** *** One counter for two kinds of failure *)





(** ** The command parser *)

Example process_user_command_ex :
  process_user_command "  Analyze Price by Region " = ("analyze", "price by region")
  ∧ process_user_command "SUMMARY" = ("summary", "")
  ∧ process_user_command "analyze" = ("chat", "analyze")
  ∧ process_user_command "what is the mean?" = ("chat", "what is the mean?").
Proof. repeat split; vm_compute; reflexivity. Qed.

Lemma existsb_eqb_elem (x : string) (l : list string) :
  existsb (String.eqb x) l = true → x ∈ l.
Proof.
  induction l as [|y l IH]; simpl; [discriminate|].
  intros [H|H]%orb_true_iff; [apply String.eqb_eq in H as ->; left | right; auto].
Qed.

(** X25. The action returned for any input is one of the thirteen that
    the session dispatches on. *)
Theorem process_user_command_known_action (user_input : string) :
  fst (process_user_command user_input) ∈ known_actions.
Proof.
  unfold process_user_command.
  repeat match goal with
         | |- context [if PyStr.startswith ?p ?s then _ else _] =>
             destruct (PyStr.startswith p s);
             [cbn [fst]; apply list_elem_of_In; simpl; tauto|]
         end.
  destruct (existsb _ bare_commands) eqn:Hbare; cbn [fst].
  - apply existsb_eqb_elem in Hbare. unfold known_actions.
    rewrite !elem_of_app. right. by left.
  - apply list_elem_of_In. simpl. tauto.
Qed.

(** X26. Commands are read without regard to capitalisation and to the
    white space around them, and the parameters come back lower-cased. *)
Theorem process_user_command_normalises (user_input : string) :
  process_user_command (PyStr.strip user_input) = process_user_command user_input
  ∧ process_user_command (PyStr.lower user_input)
    = process_user_command user_input
  ∧ PyStr.lower (snd (process_user_command user_input))
    = snd (process_user_command user_input).
Proof.
  split; [|split].
  - unfold process_user_command. by rewrite strip_idemp.
  - unfold process_user_command. by rewrite <- lower_strip, lower_idemp.
  - unfold process_user_command.
    assert (Hdrop : ∀ n s, PyStr.lower (PyStr.drop n (PyStr.lower s))
                           = PyStr.drop n (PyStr.lower s)).
    { intros n. induction n as [|n IH]; intros s.
      - apply lower_idemp.
      - destruct s as [|c s]; [reflexivity|]. apply IH. }
    repeat match goal with
           | |- context [if ?b then _ else _] => destruct b
           end; cbn [snd]; first [apply Hdrop | apply lower_idemp | reflexivity].
Qed.

Lemma prefix_drop (p u : string) :
  String.prefix p u = true → u = p +:+ PyStr.drop (String.length p) u.
Proof.
  revert p. induction u as [|c u IH]; intros [|d p] H; try done.
  rewrite prefix_cons in H. destruct (ascii_dec d c) as [->|]; [|done].
  cbn [String.length PyStr.drop]. by rewrite append_cons, <- IH.
Qed.

Lemma keyword_argument_nonempty (p u : string) :
  String.prefix p u = true → PyStr.rstrip u = u → PyStr.rstrip p ≠ p →
  PyStr.drop (String.length p) u ≠ "".
Proof.
  intros Hp Hu Hnot Hempty. apply prefix_drop in Hp.
  rewrite Hempty, append_empty_r in Hp. by subst u.
Qed.

Lemma command_text_stripped (user_input : string) :
  PyStr.rstrip (PyStr.lower (PyStr.strip user_input))
  = PyStr.lower (PyStr.strip user_input).
Proof.
  rewrite lower_strip. unfold PyStr.strip. apply rstrip_idemp.
Qed.

(** X27. An action that takes its parameters after a keyword always
    comes with parameters that are not empty: the keyword alone, with or
    without blanks after it, is not read as that action. *)
Theorem keyword_action_has_argument (user_input : string) :
  fst (process_user_command user_input) ∈ keyword_actions →
  snd (process_user_command user_input) ≠ "".
Proof.
  pose proof (command_text_stripped user_input) as Hu.
  unfold process_user_command, PyStr.startswith.
  repeat match goal with
         | |- context [if String.prefix ?p ?s then _ else _] =>
             destruct (String.prefix p s) eqn:?;
             [ intros _; cbn [snd];
               by apply (keyword_argument_nonempty p) |]
         end.
  destruct (existsb _ bare_commands) eqn:Hbare; cbn [fst snd]; intros Hin.
  - apply existsb_eqb_elem, list_elem_of_In in Hbare.
    apply list_elem_of_In in Hin. simpl in Hbare, Hin.
    destruct Hbare as [Hb|[Hb|[Hb|[Hb|[Hb|[]]]]]]; rewrite <- Hb in Hin;
      repeat (destruct Hin as [Hin|Hin]; [discriminate Hin|]); done.
  - apply list_elem_of_In in Hin. simpl in Hin.
    repeat (destruct Hin as [Hin|Hin]; [discriminate Hin|]). done.
Qed.

Lemma keyword_action_has_argument_witness :
  fst (process_user_command "Save  My Session ") ∈ keyword_actions
  ∧ snd (process_user_command "Save  My Session ") ≠ "".
Proof.
  assert (H : fst (process_user_command "Save  My Session ") ∈ keyword_actions)
    by (apply list_elem_of_In; vm_compute; tauto).
  split; [exact H|].
  exact (keyword_action_has_argument "Save  My Session " H).
Defined.

(** ** The names of session files *)

Lemma endswith_append (suffix s : string) : endswith suffix (s +:+ suffix) = true.
Proof.
  unfold endswith, PyStr.last_chars. rewrite length_append.
  replace (String.length s + String.length suffix - String.length suffix)%nat
    with (String.length s + 0)%nat by lia.
  rewrite drop_append_add. change (PyStr.drop 0 suffix) with suffix.
  rewrite String.eqb_refl, andb_true_r. apply Nat.leb_le. lia.
Qed.

Lemma load_file_name_ends (filename : string) :
  endswith ".json" (load_file_name filename) = true.
Proof.
  unfold load_file_name. destruct (endswith ".json" filename) eqn:H; [done|].
  apply endswith_append.
Qed.

(** X28. The session file that is written and the one that is read both
    have a name that ends in .json; for a name that is not empty, saving
    and loading agree on the file; the extension is never added twice, and
    a name typed without the extension leads to the same file as the name
    typed with it. *)
Theorem session_file_names (filename stamp : string) :
  endswith ".json" (save_file_name filename stamp) = true
  ∧ endswith ".json" (load_file_name filename) = true
  ∧ (filename ≠ "" → save_file_name filename stamp = load_file_name filename)
  ∧ load_file_name (load_file_name filename) = load_file_name filename
  ∧ (endswith ".json" filename = false →
     load_file_name (filename +:+ ".json") = load_file_name filename).
Proof.
  split; [|split; [|split; [|split]]].
  - unfold save_file_name. apply load_file_name_ends.
  - apply load_file_name_ends.
  - intros Hne. unfold save_file_name.
    by apply String.eqb_neq in Hne as ->.
  - unfold load_file_name at 1. by rewrite load_file_name_ends.
  - intros Hext. unfold load_file_name. by rewrite endswith_append, Hext.
Qed.

(** ** The history display *)

Lemma shown_code_length (code : string) :
  (String.length (shown_code code) ≤ 100)%nat.
Proof.
  unfold shown_code. destruct (100 <? _)%nat eqn:Hlen.
  - apply Nat.ltb_lt in Hlen. rewrite length_append, length_take.
    cbn [String.length]. lia.
  - by apply Nat.ltb_ge in Hlen.
Qed.

Lemma take_append_le (n : nat) (a b : string) :
  (n ≤ String.length a)%nat → PyStr.take n (a +:+ b) = PyStr.take n a.
Proof.
  revert a. induction n as [|n IH]; intros a Hn; [reflexivity|].
  destruct a as [|c a]; simpl in Hn; [lia|].
  rewrite append_cons. cbn [PyStr.take]. rewrite IH; [done | lia].
Qed.

Lemma take_take_same (n : nat) (s : string) :
  PyStr.take n (PyStr.take n s) = PyStr.take n s.
Proof.
  revert s. induction n as [|n IH]; intros s; [reflexivity|].
  destruct s as [|c s]; [reflexivity|]. cbn [PyStr.take]. by rewrite IH.
Qed.

Lemma length_history_lines (f : nat → SessionEntry → list string)
    (h : list SessionEntry) :
  (∀ i e, length (f i e) = 4%nat) →
  length (mjoin (imap f h)) = (4 * length h)%nat.
Proof.
  revert f. induction h as [|e h IH]; intros f Hf; [reflexivity|].
  rewrite imap_cons. cbn [mjoin list_join length]. rewrite length_app, Hf, IH.
  - lia.
  - intros i e'. apply Hf.
Qed.

(** X29. The history display prints two header lines and then one line
    when the history is empty, four lines for each entry otherwise; a line
    of code shows at most 100 characters of the code
    and always its first 97 characters. *)
Theorem history_display_shape (session_history : list SessionEntry)
    (i : nat) (entry : SessionEntry) :
  length (handle_history_command session_history)
  = (match session_history with
     | [] => 3
     | _ => 2 + 4 * length session_history
     end)%nat
  ∧ (session_history !! i = Some entry →
     "      Code: " +:+ shown_code (code entry)
     ∈ handle_history_command session_history)
  ∧ (String.length (shown_code (code entry)) ≤ 100)%nat
  ∧ PyStr.take 97 (shown_code (code entry)) = PyStr.take 97 (code entry).
Proof.
  split; [|split; [|split]].
  - unfold handle_history_command. rewrite length_app.
    destruct session_history as [|e h]; [reflexivity|].
    by rewrite length_history_lines.
  - intros Hi. unfold handle_history_command. apply elem_of_app. right.
    destruct session_history as [|e h]; [by rewrite lookup_nil in Hi|].
    apply list_elem_of_join.
    exists (history_entry_lines i entry). split.
    + unfold history_entry_lines. apply list_elem_of_In. simpl. tauto.
    + apply list_elem_of_lookup. exists i. by rewrite list_lookup_imap, Hi.
  - apply shown_code_length.
  - unfold shown_code. destruct (100 <? _)%nat eqn:Hlen; [|reflexivity].
    apply Nat.ltb_lt in Hlen.
    rewrite take_append_le by (rewrite length_take; lia).
    apply take_take_same.
Qed.
